(** * pytorch-widedeep: the loss registry, the custom losses and the
    WideDeep model composer

  A shallow embedding of [pytorch_widedeep/losses.py] and
  [pytorch_widedeep/models/wide_deep.py].

  - Python control flow is kept as it is written: a function that can
    raise returns an [outcome], a function that may fall off its end
    returns an [option] inside it.
  - Keyword arguments ([**kwargs]) are a finite map from names to Python
    values; module-level dict literals and the batch mapping keep their
    insertion order and are association lists.
  - A tensor is a shape together with its elements in row-major order.
    The losses are stated over the real numbers (the arithmetic of the
    numerical substrate without rounding, infinities or not-a-number);
    the composer is generic in the element type.
  - [nn.Linear(...)] draws its initial weights from the global random
    generator: the generator is threaded through as explicit state. *)

From Stdlib Require Import String List ZArith Reals Lra Lia.
From stdpp Require Import base option list gmap strings.
Import ListNotations.
Open Scope string_scope.
Open Scope list_scope.

(* ================================================================== *)
(** * Python values, exceptions, ordered dicts                          *)
(* ================================================================== *)

Module Py.

Inductive exn : Type :=
| ValueError
| KeyError (key : string)
| TypeError
| AttributeError
| IndexError
| AssertionError
| StopIteration
| RuntimeError.

Inductive outcome (A : Type) : Type :=
| Return (a : A)
| Raise (e : exn).
Arguments Return {A} a.
Arguments Raise {A} e.

#[global] Instance outcome_ret : MRet outcome := @Return.
#[global] Instance outcome_bind : MBind outcome :=
  fun A B f m => match m with Return a => f a | Raise e => Raise e end.
#[global] Instance outcome_fmap : FMap outcome :=
  fun A B f m => match m with Return a => Return (f a) | Raise e => Raise e end.

(** [assert c] *)
Definition assert (c : bool) : outcome unit :=
  if c then Return tt else Raise AssertionError.

(** An insertion-ordered dict with string keys. *)
Definition dict (V : Type) : Type := list (string * V).

Definition keys {V} (d : dict V) : list string := map fst d.

Fixpoint get {V} (d : dict V) (k : string) : option V :=
  match d with
  | [] => None
  | (k', v) :: d' => if String.eqb k k' then Some v else get d' k
  end.

(** [d[k]] *)
Definition getitem {V} (d : dict V) (k : string) : outcome V :=
  match get d k with
  | Some v => Return v
  | None => Raise (KeyError k)
  end.

(** [d[k] = v]: an existing key keeps its position. *)
Fixpoint setitem {V} (d : dict V) (k : string) (v : V) : dict V :=
  match d with
  | [] => [(k, v)]
  | (k', v') :: d' =>
      if String.eqb k k' then (k', v) :: d' else (k', v') :: setitem d' k v
  end.

(** [x in l] for a list of strings. *)
Definition mem (x : string) (l : list string) : bool :=
  existsb (String.eqb x) l.

(** [sub in s] for strings. *)
Fixpoint contains (sub s : string) : bool :=
  if String.prefix sub s then true
  else match s with
       | EmptyString => false
       | String _ s' => contains sub s'
       end.

End Py.
Import Py.

(* ================================================================== *)
(** * The numerical substrate: tensors                                  *)
(* ================================================================== *)

Module Torch.

(** A dense tensor: its [shape] and its elements in row-major order. *)
Record Tensor (A : Type) : Type := mkTensor {
  shape : list nat;
  data : list A
}.
Arguments mkTensor {A} shape data.
Arguments shape {A} t.
Arguments data {A} t.

Definition numel_of (s : list nat) : nat := fold_right Nat.mul 1%nat s.

(** The invariant of every tensor the library builds. *)
Definition wf {A} (t : Tensor A) : Prop :=
  length (data t) = numel_of (shape t).

(** [t.size(i)] for a non-negative [i]. *)
Definition size {A} (t : Tensor A) (i : nat) : outcome nat :=
  match nth_error (shape t) i with
  | Some n => Return n
  | None => Raise IndexError
  end.

(** A zero-dimensional tensor. *)
Definition scalar {A} (x : A) : Tensor A := mkTensor [] [x].

(** Elementwise application of a unary function. *)
Definition tmap {A B} (f : A -> B) (t : Tensor A) : Tensor B :=
  mkTensor (shape t) (map f (data t)).

(** [torch.zeros(n, m)] over an element type with a zero. *)
Definition full {A} (x : A) (s : list nat) : Tensor A :=
  mkTensor s (repeat x (numel_of s)).

(** [torch.FloatTensor()]: the empty one-dimensional tensor. *)
Definition empty1 {A} : Tensor A := mkTensor [0%nat] [].

(** The first [n] consecutive blocks of [k] elements of a list. *)
Fixpoint blocks {A} (n k : nat) (l : list A) : list (list A) :=
  match n with
  | O => []
  | S n' => firstn k l :: blocks n' k (skipn k l)
  end.

(** ** Broadcasting *)

(** Shapes are aligned on their last axis; a missing or unit axis stretches. *)
Fixpoint broadcast_rev (r1 r2 : list nat) : option (list nat) :=
  match r1, r2 with
  | [], r => Some r
  | r, [] => Some r
  | a :: r1', b :: r2' =>
      match broadcast_rev r1' r2' with
      | None => None
      | Some r =>
          if Nat.eqb a b then Some (a :: r)
          else if Nat.eqb a 1 then Some (b :: r)
          else if Nat.eqb b 1 then Some (a :: r)
          else None
      end
  end.

Definition broadcast_shapes (s1 s2 : list nat) : option (list nat) :=
  option_map (@rev nat) (broadcast_rev (rev s1) (rev s2)).

(** The elements of a tensor of shape [s] stretched to shape [t], both of
    the same rank. *)
Fixpoint expand_data {A} (s t : list nat) (d : list A) : option (list A) :=
  match s, t with
  | [], [] => Some d
  | sd :: s', td :: t' =>
      match mapM (expand_data s' t') (blocks sd (numel_of s') d) with
      | None => None
      | Some ps =>
          if Nat.eqb sd td then Some (concat ps)
          else if Nat.eqb sd 1 then Some (concat (repeat (concat ps) td))
          else None
      end
  | _, _ => None
  end.

(** [t.expand(target)] *)
Definition expand {A} (t : Tensor A) (target : list nat) : outcome (Tensor A) :=
  if bool_decide (shape t = target) then Return t
  else if Nat.ltb (length target) (length (shape t)) then Raise RuntimeError
  else
    let padded := repeat 1%nat (length target - length (shape t)) ++ shape t in
    match expand_data padded target (data t) with
    | Some d => Return (mkTensor target d)
    | None => Raise RuntimeError
    end.

(** An elementwise binary operation with broadcasting, such as [a * b]. *)
Definition binop {A B C} (f : A -> B -> C) (a : Tensor A) (b : Tensor B)
  : outcome (Tensor C) :=
  if bool_decide (shape a = shape b)
  then Return (mkTensor (shape a) (zip_with f (data a) (data b)))
  else
    match broadcast_shapes (shape a) (shape b) with
    | None => Raise RuntimeError
    | Some s =>
        a' ← expand a s;
        b' ← expand b s;
        Return (mkTensor s (zip_with f (data a') (data b')))
    end.

(** The in-place version, [out.add_(y)]: [out] keeps its shape and only
    [y] may stretch. *)
Definition binop_ {A B} (f : A -> B -> A) (out : Tensor A) (y : Tensor B)
  : outcome (Tensor A) :=
  if bool_decide (shape out = shape y)
  then Return (mkTensor (shape out) (zip_with f (data out) (data y)))
  else
    y' ← expand y (shape out);
    Return (mkTensor (shape out) (zip_with f (data out) (data y'))).

(** ** Concatenation along axis 1 *)

(** [torch.cat([a, b], axis=1)]. A one-dimensional empty tensor is skipped
    (the substrate's legacy rule, on which [forward] relies). *)
Definition cat1 {A} (a b : Tensor A) : outcome (Tensor A) :=
  if bool_decide (shape a = [0%nat]) then Return b
  else if bool_decide (shape b = [0%nat]) then Return a
  else
    match shape a, shape b with
    | n :: ca :: ra, m :: cb :: rb =>
        if bool_decide (n = m /\ ra = rb) then
          Return (mkTensor (n :: (ca + cb)%nat :: ra)
                    (concat (zip_with (@app A)
                               (blocks n (ca * numel_of ra) (data a))
                               (blocks n (cb * numel_of rb) (data b)))))
        else Raise RuntimeError
    | _, _ => Raise IndexError
    end.

(** ** Shape surgery and indexing *)

(** [t.squeeze()]: every axis of size one is dropped. *)
Definition squeeze {A} (t : Tensor A) : Tensor A :=
  mkTensor (filter (fun n => negb (Nat.eqb n 1)) (shape t)) (data t).

(** Row [i] of a two-dimensional tensor with [c] columns. *)
Definition row {A} (c : nat) (t : Tensor A) (i : nat) : list A :=
  firstn c (skipn (i * c) (data t)).

(** [m[idx]] for a two-dimensional [m] and an integer tensor [idx]: one row
    per index, negative indices counting from the end. *)
Definition index_rows {A} (m : Tensor A) (idx : Tensor Z) : outcome (Tensor A) :=
  match shape m with
  | [r; c] =>
      rows ← mapM (M := outcome) (fun i : Z =>
                if bool_decide (0 <= i < Z.of_nat r)%Z
                then Return (row c m (Z.to_nat i))
                else if bool_decide (- Z.of_nat r <= i < 0)%Z
                then Return (row c m (Z.to_nat (i + Z.of_nat r)))
                else Raise IndexError) (data idx);
      Return (mkTensor (shape idx ++ [c]) (concat rows))
  | _ => Raise IndexError
  end.

End Torch.
Import Torch.

(* ================================================================== *)
(** * losses.py                                                         *)
(* ================================================================== *)

Module Losses.

(** The values a keyword argument of [get_loss_function] can carry. *)
Inductive pyval : Type :=
| PyNone
| PyFloat (x : R)
| PyTensor (t : Tensor R).

Definition method_to_objec : dict (list string) :=
  [ ("binary",
      [ "binary"; "logistic"; "binary_logloss"; "binary_cross_entropy";
        "binary_focal_loss" ]);
    ("multiclass",
      [ "multiclass"; "multi_logloss"; "cross_entropy";
        "categorical_cross_entropy"; "multiclass_focal_loss" ]);
    ("regression",
      [ "regression"; "mse"; "l2"; "mean_squared_error";
        "mean_absolute_error"; "mae"; "l1";
        "mean_squared_log_error"; "msle";
        "root_mean_squared_error"; "rmse";
        "root_mean_squared_log_error"; "rmsle" ]) ].

(** [{obj: method for method, objs in method_to_objec.items() for obj in objs}] *)
Definition objective_to_method : dict string :=
  fold_left (fun d '(obj, method) => setitem d obj method)
    (flat_map (fun '(method, objs) => map (fun obj => (obj, method)) objs)
       method_to_objec)
    [].

Definition loss_aliases : dict (list string) :=
  [ ("binary", ["binary"; "logistic"; "binary_logloss"; "binary_cross_entropy"]);
    ("multiclass",
      [ "multiclass"; "multi_logloss"; "cross_entropy";
        "categorical_cross_entropy" ]);
    ("regression", ["regression"; "mse"; "l2"; "mean_squared_error"]);
    ("mean_absolute_error", ["mean_absolute_error"; "mae"; "l1"]);
    ("mean_squared_log_error", ["mean_squared_log_error"; "msle"]);
    ("root_mean_squared_error", ["root_mean_squared_error"; "rmse"]);
    ("root_mean_squared_log_error", ["root_mean_squared_log_error"; "rmsle"]) ].

(** The loss objects [get_loss_function] can build. Each is an [nn.Module],
    hence callable. *)
Inductive LossFn : Type :=
| BCEWithLogitsLoss (weight : option (Tensor R))
| CrossEntropyLoss (weight : option (Tensor R))
| MSELoss
| L1Loss
| MSLELoss
| RMSELoss
| RMSLELoss
| FocalLoss (alpha gamma : pyval).

(** [kwargs[k]] *)
Definition kwarg (kwargs : gmap string pyval) (k : string) : outcome pyval :=
  match kwargs !! k with
  | Some v => Return v
  | None => Raise (KeyError k)
  end.

(** The substrate's weighted losses register [weight] as a buffer, which
    has to be a tensor or [None]. *)
Definition weighted (cls : option (Tensor R) -> LossFn) (weight : pyval)
  : outcome LossFn :=
  match weight with
  | PyNone => Return (cls None)
  | PyTensor t => Return (cls (Some t))
  | PyFloat _ => Raise TypeError
  end.

(** The call of [FocalLoss] on the unpacked [kwargs], with [__init__(self, alpha=0.25, gamma=1.0)]: a
    keyword other than the two parameters is a [TypeError]. *)
Definition FocalLoss_init (kwargs : gmap string pyval) : outcome LossFn :=
  if bool_decide (dom kwargs ⊆ ({[ "alpha"; "gamma" ]} : gset string))
  then Return (FocalLoss (default (PyFloat 0.25) (kwargs !! "alpha"))
                         (default (PyFloat 1) (kwargs !! "gamma")))
  else Raise TypeError.

(** [get_loss_function(loss_fn, **kwargs)]. The result is [None] when the
    body falls off its end. *)
Definition get_loss_function (loss_fn : string) (kwargs : gmap string pyval)
  : outcome (option LossFn) :=
  if negb (mem loss_fn (keys objective_to_method)) then Raise ValueError
  else
    a ← getitem loss_aliases "binary";
    if mem loss_fn a then
      w ← kwarg kwargs "weight"; l ← weighted BCEWithLogitsLoss w; Return (Some l)
    else
    a ← getitem loss_aliases "multiclass";
    if mem loss_fn a then
      w ← kwarg kwargs "weight"; l ← weighted CrossEntropyLoss w; Return (Some l)
    else
    a ← getitem loss_aliases "regression";
    if mem loss_fn a then Return (Some MSELoss)
    else
    a ← getitem loss_aliases "mean_absolute_error";
    if mem loss_fn a then Return (Some L1Loss)
    else
    a ← getitem loss_aliases "mean_squared_log_error";
    if mem loss_fn a then Return (Some MSLELoss)
    else
    a ← getitem loss_aliases "root_mean_squared_error";
    if mem loss_fn a then Return (Some RMSELoss)
    else
    a ← getitem loss_aliases "root_mean_squared_log_error";
    if mem loss_fn a then Return (Some RMSLELoss)
    else
    if contains "focal_loss" loss_fn then
      l ← FocalLoss_init kwargs; Return (Some l)
    else Return None.

(** ** Elementwise primitives of the substrate, over the reals *)

Definition sigmoid (x : R) : R := (1 / (1 + exp (- x)))%R.

(** [torch.log]; meaningful for a positive argument. *)
Definition log (x : R) : R := ln x.

(** [x.pow(g)] for a base that is not negative. *)
Definition pow (x g : R) : R :=
  if Rlt_dec 0 x then Rpower x g
  else if Req_dec_T g 0 then 1%R else 0%R.

Fixpoint sum (l : list R) : R :=
  match l with
  | [] => 0%R
  | x :: l' => (x + sum l')%R
  end.

(** [t.mean()], of a tensor that has an element. *)
Definition mean (l : list R) : R := (sum l / INR (length l))%R.

(** [t.detach()]: the same values, cut off from the gradient graph. *)
Definition detach (t : Tensor R) : Tensor R := t.

(** [t.long()] on an integer tensor and [t.contiguous()] leave the values
    as they are, and so does moving a tensor to the device ([t.cuda()],
    which is therefore left out). *)
Definition long (t : Tensor Z) : Tensor Z := t.
Definition contiguous (t : Tensor R) : Tensor R := t.

(** [torch.eye(n)] *)
Definition eye (n : nat) : Tensor R :=
  mkTensor [n; n]
    (flat_map (fun i => map (fun j => if Nat.eqb i j then 1%R else 0%R) (seq 0 n))
       (seq 0 n)).

(** [nn.MSELoss()(input, target)]: the mean of the squared differences. *)
Definition mse (input target : Tensor R) : outcome (Tensor R) :=
  d ← binop Rminus input target;
  Return (scalar (mean (map (fun x => x * x)%R (data d)))).

(** The logarithm as the substrate's cross entropy takes it: cut off
    below at [-100]. *)
Definition clog (p : R) : R :=
  if Rlt_dec 0 p then Rmax (ln p) (-100) else (-100)%R.

Definition bce_term (p t w : R) : R :=
  (- (w * (t * clog p + (1 - t) * clog (1 - p))))%R.

Fixpoint zip3 (f : R -> R -> R -> R) (l1 l2 l3 : list R) : list R :=
  match l1, l2, l3 with
  | x :: l1', y :: l2', z :: l3' => f x y z :: zip3 f l1' l2' l3'
  | _, _, _ => []
  end.

(** [F.binary_cross_entropy(input, target, weight, reduction="mean")]:
    the target must have the input's shape, every input must be a
    probability. *)
Definition binary_cross_entropy (input target weight : Tensor R)
  : outcome (Tensor R) :=
  if negb (bool_decide (shape target = shape input)) then Raise ValueError
  else
    match broadcast_shapes (shape target) (shape weight) with
    | None => Raise RuntimeError
    | Some new_size =>
        w ← expand weight new_size;
        if negb (bool_decide (shape w = shape input)) then Raise RuntimeError
        else if negb (forallb (fun p => if Rle_dec 0 p
                                        then if Rle_dec p 1 then true else false
                                        else false) (data input))
        then Raise RuntimeError
        else Return (scalar (mean (zip3 bce_term (data input) (data target) (data w))))
    end.

(** ** FocalLoss *)

(** [v * t], [1 - v] and [t.pow(v)] for a parameter [v] of the loss: a
    float acts on every element, a tensor is combined elementwise with
    broadcasting, and [None] is a [TypeError]. *)
Definition times (v : pyval) (t : Tensor R) : outcome (Tensor R) :=
  match v with
  | PyFloat x => Return (tmap (Rmult x) t)
  | PyTensor a => binop Rmult a t
  | PyNone => Raise TypeError
  end.

Definition one_minus (v : pyval) : outcome pyval :=
  match v with
  | PyFloat x => Return (PyFloat (1 - x))
  | PyTensor a => Return (PyTensor (tmap (Rminus 1) a))
  | PyNone => Raise TypeError
  end.

Definition power (t : Tensor R) (v : pyval) : outcome (Tensor R) :=
  match v with
  | PyFloat g => Return (tmap (fun x => pow x g) t)
  | PyTensor e => binop pow t e
  | PyNone => Raise TypeError
  end.

(** [FocalLoss._get_weight] *)
Definition _get_weight (alpha gamma : pyval) (p t : Tensor R)
  : outcome (Tensor R) :=
  pt1 ← binop Rmult p t;
  pt2 ← binop Rmult (tmap (Rminus 1) p) (tmap (Rminus 1) t);
  pt ← binop Rplus pt1 pt2;
  w1 ← times alpha t;
  a' ← one_minus alpha;
  w2 ← times a' (tmap (Rminus 1) t);
  w ← binop Rplus w1 w2;
  f ← power (tmap (Rminus 1) pt) gamma;
  r ← binop Rmult w f;
  Return (detach r).

(** [FocalLoss.forward] *)
Definition FocalLoss_forward (alpha gamma : pyval)
    (input : Tensor R) (target : Tensor Z) : outcome (Tensor R) :=
  let input_prob := tmap sigmoid input in
  c ← size input 1;
  pc ← (if Nat.eqb c 1
        then p ← cat1 (tmap (Rminus 1) input_prob) input_prob; Return (p, 2%nat)
        else c' ← size input_prob 1; Return (input_prob, c'));
  let input_prob := fst pc in
  let num_class := snd pc in
  binary_target ← index_rows (eye num_class) (long (squeeze target));
  let binary_target := contiguous binary_target in
  weight ← _get_weight alpha gamma input_prob binary_target;
  binary_cross_entropy input_prob binary_target weight.

(** ** MSLELoss, RMSELoss, RMSLELoss *)

Definition MSLELoss_forward (input target : Tensor R) : outcome (Tensor R) :=
  mse (tmap log (tmap (fun x => x + 1)%R input))
      (tmap log (tmap (fun x => x + 1)%R target)).

Definition RMSELoss_forward (input target : Tensor R) : outcome (Tensor R) :=
  m ← mse input target; Return (tmap sqrt m).

Definition RMSLELoss_forward (input target : Tensor R) : outcome (Tensor R) :=
  m ← mse (tmap log (tmap (fun x => x + 1)%R input))
          (tmap log (tmap (fun x => x + 1)%R target));
  Return (tmap sqrt m).

End Losses.

(* ================================================================== *)
(** * models/wide_deep.py                                               *)
(* ================================================================== *)

Module WideDeepModel.

(** How the fully connected head is configured. *)
Inductive Dropout : Type :=
| NoDropout
| DropoutRate (p : R)
| DropoutRates (ps : list R).

Record HeadOptions : Type := mkHeadOptions {
  head_activation : string;
  head_dropout : Dropout;
  head_batchnorm : bool;
  head_batchnorm_last : bool;
  head_linear_first : bool
}.

(** The defaults of [WideDeep.__init__]. *)
Definition default_head_options : HeadOptions :=
  mkHeadOptions "relu" NoDropout false false false.

Section Composer.

(** The element type of the tensors and its arithmetic. *)
Context {T : Type}.
Variable zero : T.
Variables add mul : T -> T -> T.

(** The global random generator, and one draw from the distribution that
    initialises a linear layer of the given fan-in. *)
Context {Generator : Type}.
Variable sample : nat -> Generator -> T * Generator.

(** Computations that may raise and that may consume randomness. *)
Definition M (A : Type) : Type := Generator -> outcome A * Generator.

#[local] Instance M_ret : MRet M := fun A a g => (Return a, g).
#[local] Instance M_bind : MBind M := fun A B f m g =>
  match m g with
  | (Return a, g') => f a g'
  | (Raise e, g') => (Raise e, g')
  end.

Definition lift {A} (o : outcome A) : M A := fun g => (o, g).

(** One draw, and [n] draws in a row. *)
Definition draw (fan_in : nat) : M T := fun g =>
  let (x, g') := sample fan_in g in (Return x, g').

Fixpoint samples (fan_in n : nat) : M (list T) :=
  match n with
  | O => mret []
  | S n' => x ← draw fan_in; xs ← samples fan_in n'; mret (x :: xs)
  end.

(** An [nn.Module] as the composer uses it: it can be called, it may
    have an [output_dim] attribute, it may have a [wide_linear] whose
    weight has a shape, it lists its parameters, and it has a truth
    value (a container module with no child is false). A call neither
    reads nor updates any state of the module and answers with a tensor
    of its own. *)
Record Module : Type := mkModule {
  call : Tensor T -> outcome (Tensor T);
  output_dim : option Z;
  wide_linear : option (list nat);
  parameters : list (list nat);
  truth : bool
}.

(** [x @ W.T + b] for one row [x] of the input. *)
Definition dot (x w : list T) : T :=
  fold_right add zero (zip_with mul x w).

Definition linear_row (inf : nat) (W b : list T) (x : list T) : list T :=
  zip_with (fun w bo => add (dot x w) bo) (blocks (length b) inf W) b.

(** [F.linear(x, W, b)]: the last axis of [x] is replaced. *)
Definition linear (inf outf : nat) (W b : list T) (x : Tensor T)
  : outcome (Tensor T) :=
  match rev (shape x) with
  | [] => Raise RuntimeError
  | last_dim :: rinit =>
      if negb (Nat.eqb last_dim inf) then Raise RuntimeError
      else
        Return (mkTensor (rev rinit ++ [outf])
                  (flat_map (linear_row inf W b)
                     (blocks (numel_of (rev rinit)) inf (data x))))
  end.

(** [nn.Linear(in_features, out_features)]: the weight and then the bias
    are drawn from the generator. *)
Definition Linear (in_features out_features : Z) : M Module :=
  if bool_decide (in_features < 0 \/ out_features < 0)%Z
  then lift (Raise RuntimeError)
  else
    let inf := Z.to_nat in_features in
    let outf := Z.to_nat out_features in
    W ← samples inf (outf * inf);
    b ← samples inf outf;
    mret (mkModule (linear inf outf W b) None None [[outf; inf]; [outf]] true).

(** [nn.Sequential(m1, m2)] *)
Definition Sequential (m1 m2 : Module) : Module :=
  mkModule (fun x => y ← call m1 x; call m2 y)
           None None (parameters m1 ++ parameters m2) true.

(** [MLP] lives in [tab_mlp.py], and what [add_module] does to the way a
    module is called depends on the class of that module: both are taken
    as they come. *)
Variable MLP : list Z -> HeadOptions -> M Module.
Variable add_module : Module -> string -> Module -> Module.

(** [x is not None] and [bool(x)] for an optional component. *)
Definition truthy (m : option Module) : bool :=
  match m with
  | None => false
  | Some m => truth m
  end.

(** [m.output_dim] *)
Definition get_output_dim (m : Module) : outcome Z :=
  match output_dim m with
  | Some d => Return d
  | None => Raise AttributeError
  end.

(** [if m is not None: acc += m.output_dim] *)
Definition add_output_dim (acc : Z) (m : option Module) : outcome Z :=
  match m with
  | None => Return acc
  | Some m => d ← get_output_dim m; Return (acc + d)%Z
  end.

(** [wide.wide_linear.weight.size(1)] *)
Definition wide_width (w : Module) : outcome Z :=
  match wide_linear w with
  | None => Raise AttributeError
  | Some s =>
      match nth_error s 1 with
      | Some n => Return (Z.of_nat n)
      | None => Raise IndexError
      end
  end.

(** [next(deephead.parameters()).size(1)] *)
Definition head_inp_feat (h : Module) : outcome Z :=
  match parameters h with
  | [] => Raise StopIteration
  | p :: _ =>
      match nth_error p 1 with
      | Some n => Return (Z.of_nat n)
      | None => Raise IndexError
      end
  end.

(** [m is not None and not hasattr(m, "output_dim")] *)
Definition lacks_output_dim (m : option Module) : bool :=
  match m with
  | Some m => negb (bool_decide (is_Some (output_dim m)))
  | None => false
  end.

Definition is_not_None {A} (x : option A) : bool :=
  match x with Some _ => true | None => false end.

(** [WideDeep._check_model_components] *)
Definition _check_model_components
    (wide deeptabular deeptext deepimage deephead : option Module)
    (head_layers_dim : option (list Z)) (pred_dim : Z) : outcome unit :=
  _ ← match wide with
      | Some w => n ← wide_width w; assert (bool_decide (n = pred_dim))
      | None => Return tt
      end;
  if lacks_output_dim deeptabular then Raise AttributeError else
  if lacks_output_dim deeptext then Raise AttributeError else
  if lacks_output_dim deepimage then Raise AttributeError else
  if is_not_None deephead && is_not_None head_layers_dim then Raise ValueError else
  if is_not_None head_layers_dim
     && negb (truthy deeptabular) && negb (truthy deeptext)
     && negb (truthy deepimage)
  then Raise ValueError else
  match deephead with
  | Some h =>
      deephead_inp_feat ← head_inp_feat h;
      output_dim ← add_output_dim 0 deeptabular;
      output_dim ← add_output_dim output_dim deeptext;
      output_dim ← add_output_dim output_dim deepimage;
      assert (bool_decide (deephead_inp_feat = output_dim))
  | None => Return tt
  end.

(** The attributes of a built model. *)
Record WideDeep : Type := mkWideDeep {
  pred_dim : Z;
  wide : option Module;
  deeptabular : option Module;
  deeptext : option Module;
  deepimage : option Module;
  deephead : option Module
}.

(** [nn.Sequential(m, nn.Linear(m.output_dim, pred_dim))] for a component
    that is there. *)
Definition with_projection (m : option Module) (pred_dim : Z)
  : M (option Module) :=
  match m with
  | None => mret None
  | Some m =>
      d ← lift (get_output_dim m);
      l ← Linear d pred_dim;
      mret (Some (Sequential m l))
  end.

(** [WideDeep.__init__] *)
Definition init
    (wide deeptabular deeptext deepimage deephead : option Module)
    (head_layers_dim : option (list Z)) (opts : HeadOptions) (pred_dim : Z)
  : M WideDeep :=
  _ ← lift (_check_model_components wide deeptabular deeptext deepimage
              deephead head_layers_dim pred_dim);
  match deephead with
  | Some _ =>
      mret (mkWideDeep pred_dim wide deeptabular deeptext deepimage deephead)
  | None =>
      match head_layers_dim with
      | Some dims =>
          deep_dim ← lift (add_output_dim 0 deeptabular);
          deep_dim ← lift (add_output_dim deep_dim deeptext);
          deep_dim ← lift (add_output_dim deep_dim deepimage);
          let head_layers_dim := deep_dim :: dims in
          h ← MLP head_layers_dim opts;
          l ← Linear (List.last head_layers_dim deep_dim) pred_dim;
          mret (mkWideDeep pred_dim wide deeptabular deeptext deepimage
                  (Some (add_module h "head_out" l)))
      | None =>
          tab ← with_projection deeptabular pred_dim;
          txt ← with_projection deeptext pred_dim;
          img ← with_projection deepimage pred_dim;
          mret (mkWideDeep pred_dim wide tab txt img None)
      end
  end.

(** [torch.zeros(batch_size, pred_dim)] *)
Definition zeros (batch_size : nat) (pred_dim : Z) : outcome (Tensor T) :=
  if bool_decide (pred_dim < 0)%Z then Raise RuntimeError
  else Return (full zero [batch_size; Z.to_nat pred_dim]).

(** [m(X[key])] *)
Definition run (m : Module) (X : dict (Tensor T)) (key : string)
  : outcome (Tensor T) :=
  x ← getitem X key; call m x.

(** [if m is not None: deepside = torch.cat([deepside, m(X[key])], axis=1)] *)
Definition cat_branch (deepside : Tensor T) (m : option Module)
    (X : dict (Tensor T)) (key : string) : outcome (Tensor T) :=
  match m with
  | None => Return deepside
  | Some m => y ← run m X key; cat1 deepside y
  end.

(** [if m is not None: out.add_(m(X[key]))] *)
Definition add_branch (out : Tensor T) (m : option Module)
    (X : dict (Tensor T)) (key : string) : outcome (Tensor T) :=
  match m with
  | None => Return out
  | Some m => y ← run m X key; binop_ add out y
  end.

(** What the head is fed: the activations of the deep components that
    are there, side by side, tabular first, then text, then image. *)
Definition deepside_of (self : WideDeep) (X : dict (Tensor T))
  : outcome (Tensor T) :=
  deepside ← match deeptabular self with
             | Some m => run m X "deeptabular"
             | None => Return empty1
             end;
  deepside ← cat_branch deepside (deeptext self) X "deeptext";
  cat_branch deepside (deepimage self) X "deepimage".

(** The deep output passed through a head and connected to the output
    neurons: the first branch of [if self.deephead:]. *)
Definition forward_head (self : WideDeep) (head : Module)
    (X : dict (Tensor T)) (out : Tensor T) : M (Tensor T) :=
  deepside ← lift (deepside_of self X);
  deephead_out ← lift (call head deepside);
  n ← lift (size deephead_out 1);
  deepside_linear ← Linear (Z.of_nat n) (pred_dim self);
  y ← lift (call deepside_linear deephead_out);
  lift (binop_ add out y).

(** The deep output connected directly to the output neurons: the [else]
    branch. *)
Definition forward_direct (self : WideDeep) (X : dict (Tensor T))
    (out : Tensor T) : M (Tensor T) :=
  out ← lift (add_branch out (deeptabular self) X "deeptabular");
  out ← lift (add_branch out (deeptext self) X "deeptext");
  out ← lift (add_branch out (deepimage self) X "deepimage");
  mret out.

(** The wide output, or zeros of the batch size of the first entry of [X]. *)
Definition wide_out (self : WideDeep) (X : dict (Tensor T))
  : outcome (Tensor T) :=
  match wide self with
  | Some w => run w X "wide"
  | None =>
      match keys X with
      | [] => Raise IndexError
      | k :: _ =>
          x ← getitem X k;
          batch_size ← size x 0;
          zeros batch_size (pred_dim self)
      end
  end.

(** [WideDeep.forward]. [if self.deephead:] takes the truth value of the
    attribute: [None] is false, a module has its own. *)
Definition forward (self : WideDeep) (X : dict (Tensor T)) : M (Tensor T) :=
  out ← lift (wide_out self X);
  match deephead self with
  | Some head =>
      if truth head then forward_head self head X out
      else forward_direct self X out
  | None => forward_direct self X out
  end.

(** ** The head of [tab_mlp.py], from its description *)

(** Modelled from the spec: a dense layer of [MLP] with normalisation and
    dropout switched off, as they are by default, which leaves a linear
    map followed by the activation. *)
Definition dense_layer (activation : T -> T) (inp out : Z) : M Module :=
  l ← Linear inp out;
  mret (mkModule (fun x => y ← call l x; Return (tmap activation y))
          None None (parameters l) true).

(** Modelled from the spec: [MLP], of [tab_mlp.py], is not among the
    sources. It is a feed-forward stack, one dense layer per pair of
    consecutive widths. *)
Fixpoint MLP_spec (activation : T -> T) (d_hidden : list Z) : M Module :=
  match d_hidden with
  | inp :: ((out :: _) as rest) =>
      layer ← dense_layer activation inp out;
      more ← MLP_spec activation rest;
      mret (Sequential layer more)
  | _ => mret (mkModule (fun x => Return x) None None [] true)
  end.

(** Modelled from the spec: the head is the stack with the final linear
    projection appended to it. *)
Definition add_module_spec (m : Module) (name : string) (child : Module)
  : Module :=
  mkModule (fun x => y ← call m x; call child y)
           (output_dim m) (wide_linear m)
           (parameters m ++ parameters child) true.

End Composer.

#[export] Existing Instance M_ret.
#[export] Existing Instance M_bind.

End WideDeepModel.

(* ================================================================== *)
(** * A small concrete setting                                          *)
(* ================================================================== *)

(** Integer-valued tensors, and a generator that counts: draw number [g]
    is the integer [g]. Enough to run the composer on paper. *)
Module Toy.
Import WideDeepModel.

Definition Gen : Type := Z.

Definition sample (fan_in : nat) (g : Gen) : Z * Gen := (g, (g + 1)%Z).

Definition relu (x : Z) : Z := Z.max 0 x.

Definition MLP (dims : list Z) (opts : HeadOptions) : M (Generator := Gen) (Module (T := Z)) :=
  MLP_spec 0%Z Z.add Z.mul sample relu dims.

Definition add_module := add_module_spec (T := Z).

Definition init := init 0%Z Z.add Z.mul sample MLP add_module.

Definition forward := forward 0%Z Z.add Z.mul sample.

(** A component that is not there. *)
Definition none : option (Module (T := Z)) := None.

(** A component that hands its input on, with [output_dim] as given. *)
Definition passthrough (d : Z) : Module (T := Z) :=
  mkModule (fun x => Return x) (Some d) None [] true.

(** A user head that hands its input on and whose first parameter has
    [d] columns. *)
Definition user_head (d : nat) : Module (T := Z) :=
  mkModule (fun x => Return x) None None [[1%nat; d]] true.

(** A wide component for a prediction of width [p] that answers with
    [y] whatever it is given. *)
Definition const_wide (p : nat) (y : Tensor Z) : Module (T := Z) :=
  mkModule (fun _ => Return y) None (Some [5%nat; p]) [[5%nat; p]] true.

(** A one-row, one-column batch. *)
Definition X1 (v : Z) : dict (Tensor Z) :=
  [("deeptabular", mkTensor [1%nat; 1%nat] [v])].

(** The model of a tabular component and a user head, both of width one,
    as [__init__] leaves it. *)
Definition headed : WideDeep (T := Z) :=
  mkWideDeep 1 none (Some (passthrough 1)) none none (Some (user_head 1)).

End Toy.

(* ================================================================== *)
(** * Specification-side definitions                                    *)
(* ================================================================== *)

Module Spec.
Import Losses.

(** The alias vocabulary: every name of every task family. *)
Definition vocabulary : list string := keys objective_to_method.

(** The spellings routed to one loss by [loss_aliases]. *)
Definition aliases (family : string) : list string :=
  default [] (get loss_aliases family).

(** The eight constructor calls of [get_loss_function]. *)
Inductive ctor : Type :=
| ctor_BCEWithLogitsLoss
| ctor_CrossEntropyLoss
| ctor_MSELoss
| ctor_L1Loss
| ctor_MSLELoss
| ctor_RMSELoss
| ctor_RMSLELoss
| ctor_FocalLoss.

Definition construct (c : ctor) (kwargs : gmap string pyval) : outcome LossFn :=
  match c with
  | ctor_BCEWithLogitsLoss => w ← kwarg kwargs "weight"; weighted BCEWithLogitsLoss w
  | ctor_CrossEntropyLoss => w ← kwarg kwargs "weight"; weighted CrossEntropyLoss w
  | ctor_MSELoss => Return MSELoss
  | ctor_L1Loss => Return L1Loss
  | ctor_MSLELoss => Return MSLELoss
  | ctor_RMSELoss => Return RMSELoss
  | ctor_RMSLELoss => Return RMSLELoss
  | ctor_FocalLoss => FocalLoss_init kwargs
  end.

(** The keyword [weight] is passed and holds [None] or a tensor. *)
Definition weight_given (kwargs : gmap string pyval) : Prop :=
  kwargs !! "weight" = Some PyNone \/ exists t, kwargs !! "weight" = Some (PyTensor t).

(** Keyword arguments that suit a name: a binary or multiclass alias needs
    [weight]; a focal name takes [alpha] and [gamma] and nothing else. *)
Definition suits (kwargs : gmap string pyval) (name : string) : Prop :=
  (In name (aliases "binary" ++ aliases "multiclass") -> weight_given kwargs)
  /\ (contains "focal_loss" name = true ->
      dom kwargs ⊆ ({[ "alpha"; "gamma" ]} : gset string)).

(** Where each name of the vocabulary is routed. *)
Definition route (name : string) : ctor :=
  if mem name (aliases "binary") then ctor_BCEWithLogitsLoss
  else if mem name (aliases "multiclass") then ctor_CrossEntropyLoss
  else if mem name (aliases "regression") then ctor_MSELoss
  else if mem name (aliases "mean_absolute_error") then ctor_L1Loss
  else if mem name (aliases "mean_squared_log_error") then ctor_MSLELoss
  else if mem name (aliases "root_mean_squared_error") then ctor_RMSELoss
  else if mem name (aliases "root_mean_squared_log_error") then ctor_RMSLELoss
  else ctor_FocalLoss.

(** The mean squared error of two lists of the same length. *)
Definition mean_sq_diff (f : R -> R) (xs ys : list R) : R :=
  mean (zip_with (fun x y => (f x - f y) * (f x - f y))%R xs ys).

(** The row of the one-hot matrix for a class label. *)
Definition one_hot (num_class : nat) (label : Z) : list R :=
  map (fun j => if Nat.eqb (Z.to_nat label) j then 1%R else 0%R) (seq 0 num_class).

(** The modulating weight of the focal loss at one position. *)
Definition modulating_weight (alpha gamma p t : R) : R :=
  ((alpha * t + (1 - alpha) * (1 - t))
   * pow (1 - (p * t + (1 - p) * (1 - t))) gamma)%R.

(** The two-column probabilities of a column of logits, row by row: class
    0 first, class 1 second. *)
Definition two_class_probs (logits : list R) : list R :=
  flat_map (fun x => [(1 - sigmoid x)%R; sigmoid x]) logits.

End Spec.

Module ComposerSpec.
Import WideDeepModel.

(** The three places of a deep component. *)
Inductive Slot : Type := Tabular | Text | Image.

Definition slot_key (s : Slot) : string :=
  match s with
  | Tabular => "deeptabular"
  | Text => "deeptext"
  | Image => "deepimage"
  end.

Section Misconfiguration.
Context {T : Type}.

(** A component put in one place, the other places left empty. *)
Definition only (s s' : Slot) (b : Module (T := T)) : option Module :=
  match s, s' with
  | Tabular, Tabular | Text, Text | Image, Image => Some b
  | _, _ => None
  end.

Definition component (m : WideDeep (T := T)) (s : Slot) : option Module :=
  match s with
  | Tabular => deeptabular m
  | Text => deeptext m
  | Image => deepimage m
  end.

(** The sum of [output_dim] over the deep components that are there. *)
Definition deep_output_dim (tab txt img : option (Module (T := T))) : outcome Z :=
  d ← add_output_dim 0 tab;
  d ← add_output_dim d txt;
  add_output_dim d img.

(** The five configuration errors of the composer. *)
Inductive misconfigured
    (wide tab txt img head : option (Module (T := T)))
    (head_layers_dim : option (list Z)) (pred_dim : Z) : Prop :=
| wide_width_differs w n :
    wide = Some w -> wide_width w = Return n -> n <> pred_dim ->
    misconfigured wide tab txt img head head_layers_dim pred_dim
| output_dim_missing b :
    tab = Some b \/ txt = Some b \/ img = Some b -> output_dim b = None ->
    misconfigured wide tab txt img head head_layers_dim pred_dim
| head_given_twice h dims :
    head = Some h -> head_layers_dim = Some dims ->
    misconfigured wide tab txt img head head_layers_dim pred_dim
| head_without_deep dims :
    head_layers_dim = Some dims -> tab = None -> txt = None -> img = None ->
    misconfigured wide tab txt img head head_layers_dim pred_dim
| head_width_differs h n d :
    head = Some h -> head_inp_feat h = Return n ->
    deep_output_dim tab txt img = Return d -> n <> d ->
    misconfigured wide tab txt img head head_layers_dim pred_dim.

End Misconfiguration.

End ComposerSpec.

(* ================================================================== *)
(** * Further definitions                                               *)
(* ================================================================== *)

Module PyMore.

(** Filling a dict from a list of pairs, a later pair winning: what a
    dict comprehension does with the pairs it runs through. *)
Definition fill {V} (pairs : list (string * V)) (d : dict V) : dict V :=
  fold_left (fun d '(k, v) => setitem d k v) pairs d.

End PyMore.
Import PyMore.

Module LossSpec.
Import Losses Spec.

(** The probabilities [FocalLoss.forward] works with, row by row: the two
    columns of the binary case for a single column of logits, the
    elementwise sigmoid otherwise. *)
Definition class_probs (columns : nat) (logits : list R) : list R :=
  if Nat.eqb columns 1 then two_class_probs logits else map sigmoid logits.

(** The number of classes for that many columns of logits. *)
Definition num_classes (columns : nat) : nat :=
  if Nat.eqb columns 1 then 2%nat else columns.

(** The focal loss of probabilities [p] against one-hot targets [t]: the
    mean of the cross-entropy terms, each under its modulating weight. *)
Definition focal_value (alpha gamma : R) (p t : list R) : R :=
  mean (zip3 bce_term p t (zip_with (modulating_weight alpha gamma) p t)).

(** The class-balancing factor of the modulating weight on its own. *)
Definition alpha_term (alpha p t : R) : R :=
  (alpha * t + (1 - alpha) * (1 - t))%R.

(** A batch [FocalLoss.forward] is meant for: [n >= 2] rows of [c >= 1]
    logits each, and one label per row, a class index, given as a
    column or as a vector. *)
Definition labelled_batch (n c : nat) (tshape : list nat)
    (logits : list R) (labels : list Z) : Prop :=
  (1 <= c)%nat /\ (2 <= n)%nat
  /\ length logits = (n * c)%nat /\ length labels = n
  /\ (tshape = [n; 1%nat] \/ tshape = [n])
  /\ Forall (fun l => 0 <= l < Z.of_nat (num_classes c))%Z labels.

End LossSpec.

Module ComposerSpecMore.
Import WideDeepModel ComposerSpec.

Section Configuration.
Context {T : Type}.

(** What [_check_model_components] asks of its arguments. *)
Definition well_configured
    (wide tab txt img head : option (Module (T := T)))
    (head_layers_dim : option (list Z)) (pred_dim : Z) : Prop :=
  (forall w, wide = Some w -> wide_width w = Return pred_dim)
  /\ (forall b, tab = Some b \/ txt = Some b \/ img = Some b ->
                is_Some (output_dim b))
  /\ (head = None \/ head_layers_dim = None)
  /\ (head_layers_dim <> None ->
      truthy tab = true \/ truthy txt = true \/ truthy img = true)
  /\ (forall h, head = Some h ->
       exists n, head_inp_feat h = Return n
                 /\ deep_output_dim tab txt img = Return n).

(** The keys of the batch mapping that belong to a component of the
    model. *)
Definition present (self : WideDeep (T := T)) (key : string) : Prop :=
  (key = "wide" /\ wide self <> None)
  \/ (key = "deeptabular" /\ deeptabular self <> None)
  \/ (key = "deeptext" /\ deeptext self <> None)
  \/ (key = "deepimage" /\ deepimage self <> None).

(** The first entry of a batch mapping. *)
Definition first_entry (X : dict (Tensor T)) : option (string * Tensor T) :=
  match X with
  | [] => None
  | e :: _ => Some e
  end.

End Configuration.

End ComposerSpecMore.

Module TorchMore.
Import Py Torch.

(** [x[:, 0, :]]: the first entry along the second of at least three
    axes. *)
Definition select_first {A} (x : Tensor A) : outcome (Tensor A) :=
  match shape x with
  | n :: f :: ((_ :: _) as rest) =>
      if Nat.eqb f 0 then Raise IndexError
      else
        Return (mkTensor (n :: rest)
                  (flat_map (firstn (numel_of rest))
                     (blocks n (f * numel_of rest) (data x))))
  | _ => Raise IndexError
  end.

(** [x.flatten(1)]: every axis after the first is merged into one. *)
Definition flatten1 {A} (x : Tensor A) : outcome (Tensor A) :=
  match shape x with
  | n :: ((_ :: _) as rest) => Return (mkTensor [n; numel_of rest] (data x))
  | _ => Raise IndexError
  end.

End TorchMore.

(* ================================================================== *)
(** * The attentive tabular model ([attentive_tab_mlp.py])              *)
(* ================================================================== *)

Module AttentiveTabMlpModel.
Import Py Torch TorchMore WideDeepModel.

(** A name read before it was bound is an error of its own kind. *)
Inductive failure : Type :=
| Exception (e : exn)
| UnboundLocalError (name : string).

Inductive result (A : Type) : Type :=
| Done (a : A)
| Failed (f : failure).
Arguments Done {A} a.
Arguments Failed {A} f.

#[global] Instance result_ret : MRet result := @Done.
#[global] Instance result_bind : MBind result :=
  fun A B f m => match m with Done a => f a | Failed e => Failed e end.

Definition of_outcome {A} (o : outcome A) : result A :=
  match o with
  | Return a => Done a
  | Raise e => Failed (Exception e)
  end.

(** The arguments of [AttentiveTabMlp.__init__], all of which it stores. *)
Record Args : Type := mkArgs {
  column_idx : dict Z;
  cat_embed_input : option (list (string * Z));
  cat_embed_dropout : R;
  full_embed_dropout : bool;
  shared_embed : bool;
  add_shared_embed : bool;
  frac_shared_embed : R;
  continuous_cols : option (list string);
  embed_continuous_activation : option string;
  cont_embed_dropout : R;
  cont_embed_activation : option string;
  cont_norm_layer : option string;
  input_dim : Z;
  attention_name : string;
  attn_dropout : R;
  with_residual : bool;
  n_heads : Z;
  use_bias : bool;
  n_blocks : Z;
  mlp_hidden_dims : option (list Z);
  mlp_activation : string;
  mlp_dropout : R;
  mlp_batchnorm : bool;
  mlp_batchnorm_last : bool;
  mlp_linear_first : bool
}.

Section AttentiveTabMlp.
Context {T : Type} {Generator : Type}.

(** A layer maps a tensor to a tensor; the embeddings layer maps the
    batch to the embedded categorical and the embedded continuous
    columns, each of which may be [None]. A call neither reads nor
    updates any state of the layer. *)
Definition Layer : Type := Tensor T -> outcome (Tensor T).
Definition Embeddings : Type :=
  Tensor T -> outcome (option (Tensor T) * option (Tensor T)).

(** [allowed_activations], of [_get_activation_fn.py], and the classes
    [SameSizeCatAndContEmbeddings], [AttentionEncoder] and [MLP] live in
    other files: they are taken as they come. *)
Variable allowed_activations : list string.
Variable SameSizeCatAndContEmbeddings :
  Z -> dict Z -> option (list (string * Z)) -> R -> bool -> bool -> bool ->
  R -> bool -> option (list string) -> bool -> R -> option string -> bool ->
  option string -> M (Generator := Generator) Embeddings.
Variable AttentionEncoder :
  Z -> R -> bool -> string -> bool -> Z -> M (Generator := Generator) Layer.
Variable MLP :
  list Z -> string -> R -> bool -> bool -> bool ->
  M (Generator := Generator) Layer.

(** The attributes of a built model: the stored arguments and what
    [__init__] derives from them. *)
Record AttentiveTabMlp : Type := mkAttentiveTabMlp {
  stored : Args;
  with_cls_token : bool;
  n_cat : nat;
  n_cont : nat;
  cat_and_cont_embed : Embeddings;
  attention_blks : list Layer;
  attn_tab_mlp : option Layer;
  output_dim : Z
}.

(** [len(l) if l is not None else 0] *)
Definition len_or_0 {A} (l : option (list A)) : nat :=
  match l with
  | Some l => length l
  | None => 0%nat
  end.

(** [input_dim if with_cls_token else (n_cat + n_cont) * input_dim] *)
Definition attn_output_dim (with_cls_token : bool) (n_cat n_cont : nat)
    (input_dim : Z) : Z :=
  if with_cls_token then input_dim
  else (Z.of_nat (n_cat + n_cont) * input_dim)%Z.

(** [for i in range(n): attention_blks.add_module(..., AttentionEncoder(...))] *)
Fixpoint attention_blocks (n : nat) (a : Args) : M (list Layer) :=
  match n with
  | O => mret []
  | S n' =>
      blk ← AttentionEncoder (input_dim a) (attn_dropout a) (with_residual a)
              (attention_name a) (use_bias a) (n_heads a);
      blks ← attention_blocks n' a;
      mret (blk :: blks)
  end.

(** [l[-1]] *)
Definition last_item (l : list Z) : outcome Z :=
  match l with
  | [] => Raise IndexError
  | x :: l' => Return (List.last l' x)
  end.

(** [AttentiveTabMlp.__init__] *)
Definition init (a : Args) : M AttentiveTabMlp :=
  let with_cls_token := is_not_None (get (column_idx a) "cls_token") in
  let n_cat := len_or_0 (cat_embed_input a) in
  let n_cont := len_or_0 (continuous_cols a) in
  if negb (mem (mlp_activation a) allowed_activations)
  then lift (Raise ValueError)
  else
    embed ← SameSizeCatAndContEmbeddings
              (input_dim a) (column_idx a) (cat_embed_input a)
              (cat_embed_dropout a) (full_embed_dropout a) (shared_embed a)
              (add_shared_embed a) (frac_shared_embed a) false
              (continuous_cols a) true (cont_embed_dropout a)
              (embed_continuous_activation a) true (cont_norm_layer a);
    blks ← attention_blocks (Z.to_nat (n_blocks a)) a;
    match mlp_hidden_dims a with
    | Some dims =>
        mlp ← MLP (attn_output_dim with_cls_token n_cat n_cont (input_dim a)
                     :: dims)
                (mlp_activation a) (mlp_dropout a) (mlp_batchnorm a)
                (mlp_batchnorm_last a) (mlp_linear_first a);
        d ← lift (last_item dims);
        mret (mkAttentiveTabMlp a with_cls_token n_cat n_cont embed blks
                (Some mlp) d)
    | None =>
        mret (mkAttentiveTabMlp a with_cls_token n_cat n_cont embed blks
                None
                (attn_output_dim with_cls_token n_cat n_cont (input_dim a)))
    end.

(** [nn.Sequential.__call__]: the layers one after the other. *)
Fixpoint sequential (layers : list Layer) (x : Tensor T) : outcome (Tensor T) :=
  match layers with
  | [] => Return x
  | l :: layers' => y ← l x; sequential layers' y
  end.

(** [AttentiveTabMlp.forward] *)
Definition forward (self : AttentiveTabMlp) (X : Tensor T) : result (Tensor T) :=
  '(x_cat, x_cont) ← of_outcome (cat_and_cont_embed self X);
  x ← match x_cat, x_cont with
      | Some a, Some b => of_outcome (cat1 a b)
      | Some a, None => Done a
      | None, Some b => Done b
      | None, None => Failed (UnboundLocalError "x")
      end;
  x ← of_outcome (sequential (attention_blks self) x);
  out ← of_outcome (if with_cls_token self then select_first x
                    else flatten1 x);
  match mlp_hidden_dims (stored self) with
  | Some _ =>
      match attn_tab_mlp self with
      | Some mlp => of_outcome (mlp out)
      | None => Failed (Exception TypeError)
      end
  | None => Done out
  end.

(** What the embeddings layer hands on for [k] columns of a batch of [n]
    rows: one vector of [d] entries per row and column, or nothing when
    there is no such column. *)
Definition embedded (n d k : nat) (x : option (Tensor T)) : Prop :=
  match x with
  | Some t => shape t = [n; k; d] /\ k <> 0%nat
  | None => k = 0%nat
  end.

(** A layer that always answers, with a tensor of the shape it was
    given. *)
Definition keeps_shape (l : Layer) : Prop :=
  forall x, exists y, l x = Return y /\ shape y = shape x.

End AttentiveTabMlp.

End AttentiveTabMlpModel.

(** A small setting for the attentive model: the batch comes embedded,
    and the layers hand their input on. *)
Module ToyTab.
Import WideDeepModel AttentiveTabMlpModel.

Definition allowed_activations : list string := ["relu"; "tanh"].

Definition SameSizeCatAndContEmbeddings
    (_ : Z) (_ : dict Z) (_ : option (list (string * Z))) (_ : R)
    (_ _ _ : bool) (_ : R) (_ : bool) (_ : option (list string)) (_ : bool)
    (_ : R) (_ : option string) (_ : bool) (_ : option string)
  : M (Generator := Z) (Embeddings (T := Z)) :=
  mret (fun X => Return (Some X, None)).

Definition AttentionEncoder (_ : Z) (_ : R) (_ : bool) (_ : string)
    (_ : bool) (_ : Z) : M (Generator := Z) (Layer (T := Z)) :=
  mret (fun x => Return x).

Definition MLP (_ : list Z) (_ : string) (_ : R) (_ _ _ : bool)
  : M (Generator := Z) (Layer (T := Z)) :=
  mret (fun x => Return x).

Definition init :=
  init allowed_activations SameSizeCatAndContEmbeddings AttentionEncoder MLP.

(** Two categorical columns, embeddings of width three, the defaults
    elsewhere. *)
Definition args (hidden : option (list Z)) : Args :=
  mkArgs [("a", 0%Z); ("b", 1%Z)] (Some [("a", 4%Z); ("b", 5%Z)])
    0.1 false false false 0.25 None None 0 None None 3
    "context_attention" 0.2 false 8 false 2 hidden "relu" 0.1
    false false true.

End ToyTab.

(* ================================================================== *)
(** * Facts about the Python and tensor layer                           *)
(* ================================================================== *)

Lemma mem_In x l : mem x l = true <-> In x l.
Proof.
  unfold mem. rewrite existsb_exists. split.
  - intros (y & Hy & He). apply String.eqb_eq in He. now subst.
  - intros H. exists x. split; [assumption | apply String.eqb_refl].
Qed.

Lemma mem_not_In x l : mem x l = false <-> ~ In x l.
Proof.
  rewrite <- mem_In. destruct (mem x l); split; intros; congruence.
Qed.

(** The tensor layer on small integer tensors. *)
Module TorchExamples.
Local Open Scope Z_scope.

Example cat1_two_columns :
  cat1 (mkTensor [2%nat; 1%nat] [1; 2]) (mkTensor [2%nat; 2%nat] [3; 4; 5; 6])
  = Return (mkTensor [2%nat; 3%nat] [1; 3; 4; 2; 5; 6]).
Proof. reflexivity. Qed.

Example cat1_skips_empty :
  cat1 empty1 (mkTensor [2%nat; 1%nat] [1; 2])
  = Return (mkTensor [2%nat; 1%nat] [1; 2]).
Proof. reflexivity. Qed.

Example cat1_rows_differ :
  cat1 (mkTensor [2%nat; 1%nat] [1; 2]) (mkTensor [1%nat; 1%nat] [3])
  = Raise RuntimeError.
Proof. reflexivity. Qed.

Example binop_row_stretches :
  binop Z.add (mkTensor [2%nat; 2%nat] [1; 2; 3; 4]) (mkTensor [2%nat] [10; 20])
  = Return (mkTensor [2%nat; 2%nat] [11; 22; 13; 24]).
Proof. reflexivity. Qed.

Example binop_column_stretches :
  binop Z.add (mkTensor [2%nat; 1%nat] [1; 2]) (mkTensor [1%nat; 3%nat] [10; 20; 30])
  = Return (mkTensor [2%nat; 3%nat] [11; 21; 31; 12; 22; 32]).
Proof. reflexivity. Qed.

Example binop_mismatch :
  binop Z.add (mkTensor [2%nat] [1; 2]) (mkTensor [3%nat] [1; 2; 3])
  = Raise RuntimeError.
Proof. reflexivity. Qed.

Example binop__keeps_shape :
  binop_ Z.add (mkTensor [1%nat; 2%nat] [1; 2]) (mkTensor [2%nat; 2%nat] [1; 2; 3; 4])
  = Raise RuntimeError.
Proof. reflexivity. Qed.

Example squeeze_column : squeeze (mkTensor [3%nat; 1%nat] [0; 1; 0]) = mkTensor [3%nat] [0; 1; 0].
Proof. reflexivity. Qed.

Example squeeze_single : squeeze (mkTensor [1%nat; 1%nat] [1]) = mkTensor [] [1].
Proof. reflexivity. Qed.

Example index_rows_picks :
  index_rows (mkTensor [2%nat; 2%nat] [1; 0; 0; 1]) (mkTensor [3%nat] [1; 0; -1])
  = Return (mkTensor [3%nat; 2%nat] [0; 1; 1; 0; 0; 1]).
Proof. reflexivity. Qed.

Example index_rows_out_of_range :
  index_rows (mkTensor [2%nat; 2%nat] [1; 0; 0; 1]) (mkTensor [1%nat] [2])
  = Raise IndexError.
Proof. reflexivity. Qed.

Example linear_two_rows :
  WideDeepModel.linear 0 Z.add Z.mul 2 1 [10; 100] [7]
    (mkTensor [2%nat; 2%nat] [1; 2; 3; 4])
  = Return (mkTensor [2%nat; 1%nat] [217; 437]).
Proof. reflexivity. Qed.

End TorchExamples.

(* ================================================================== *)
(** * The loss registry                                                 *)
(* ================================================================== *)

Module RegistryFacts.
Import Losses Spec.

Lemma vocabulary_eq :
  vocabulary =
  [ "binary"; "logistic"; "binary_logloss"; "binary_cross_entropy";
    "binary_focal_loss";
    "multiclass"; "multi_logloss"; "cross_entropy";
    "categorical_cross_entropy"; "multiclass_focal_loss";
    "regression"; "mse"; "l2"; "mean_squared_error";
    "mean_absolute_error"; "mae"; "l1";
    "mean_squared_log_error"; "msle";
    "root_mean_squared_error"; "rmse";
    "root_mean_squared_log_error"; "rmsle" ].
Proof. reflexivity. Qed.

Lemma get_loss_function_route name kwargs :
  In name vocabulary ->
  get_loss_function name kwargs = Some <$> construct (route name) kwargs.
Proof.
  intros Hin. rewrite vocabulary_eq in Hin. simpl in Hin.
  repeat (destruct Hin as [<- | Hin];
          [ unfold get_loss_function; simpl; try reflexivity;
            first [ destruct (kwarg kwargs "weight") as [[] |]; reflexivity
                  | destruct (FocalLoss_init kwargs); reflexivity ]
          | ]).
  contradiction.
Qed.

End RegistryFacts.

Module RegistryTheorems.
Import Losses Spec RegistryFacts.

Lemma kwarg_weight_given kwargs (cls : option (Tensor R) -> LossFn) :
  weight_given kwargs ->
  exists l, (w ← kwarg kwargs "weight"; weighted cls w) = Return l.
Proof.
  unfold kwarg. intros [H | [t H]]; rewrite H; simpl; eauto.
Qed.

Lemma FocalLoss_init_accepts kwargs :
  dom kwargs ⊆ ({[ "alpha"; "gamma" ]} : gset string) ->
  FocalLoss_init kwargs =
  Return (FocalLoss (default (PyFloat 0.25) (kwargs !! "alpha"))
                    (default (PyFloat 1) (kwargs !! "gamma"))).
Proof.
  intros H. unfold FocalLoss_init. case_bool_decide; [reflexivity | contradiction].
Qed.

Lemma construct_suits kwargs name :
  In name vocabulary -> suits kwargs name ->
  exists l, construct (route name) kwargs = Return l.
Proof.
  intros Hin [Hw Hf]. rewrite vocabulary_eq in Hin. simpl in Hin.
  repeat (destruct Hin as [<- | Hin];
          [ simpl;
            first [ eexists; reflexivity
                  | apply kwarg_weight_given, Hw; simpl; tauto
                  | rewrite FocalLoss_init_accepts by (now apply Hf);
                    eexists; reflexivity ]
          | ]).
  contradiction.
Qed.

(** One case per alias of a weighted loss, each settled by what the
    lookup of [weight] gives. *)
Ltac alias_cases Hin Hw :=
  simpl in Hin;
  repeat (destruct Hin as [<- | Hin];
          [ unfold get_loss_function, kwarg; simpl; now rewrite Hw |]);
  contradiction.

(** C3, as the code has it. A name of the vocabulary resolves to a loss
    object whenever the keyword arguments suit it: a binary or multiclass
    alias needs the keyword [weight], holding [None] (the unweighted
    loss) or a tensor, and without the keyword the lookup raises
    [KeyError]; a focal name accepts [alpha] and [gamma] only; the other
    names accept anything. A name outside the vocabulary raises
    [ValueError]. *)
Theorem get_loss_function_resolves (name : string) (kwargs : gmap string pyval) :
  (In name vocabulary -> suits kwargs name ->
   exists l, get_loss_function name kwargs = Return (Some l))
  /\ (~ In name vocabulary -> get_loss_function name kwargs = Raise ValueError)
  /\ (In name (aliases "binary") -> kwargs !! "weight" = Some PyNone ->
      get_loss_function name kwargs = Return (Some (BCEWithLogitsLoss None)))
  /\ (In name (aliases "multiclass") -> kwargs !! "weight" = Some PyNone ->
      get_loss_function name kwargs = Return (Some (CrossEntropyLoss None)))
  /\ (In name (aliases "binary" ++ aliases "multiclass") ->
      kwargs !! "weight" = None ->
      get_loss_function name kwargs = Raise (KeyError "weight")).
Proof.
  split; [| split; [| split; [| split]]].
  - intros Hin Hs. rewrite get_loss_function_route by assumption.
    destruct (construct_suits kwargs name Hin Hs) as [l ->]. now exists l.
  - intros Hout. unfold get_loss_function.
    apply mem_not_In in Hout. unfold vocabulary in Hout. now rewrite Hout.
  - intros Hin Hw. alias_cases Hin Hw.
  - intros Hin Hw. alias_cases Hin Hw.
  - intros Hin Hw. alias_cases Hin Hw.
Qed.

(** The theorem at work: a focal name with [gamma] alone, ["logistic"]
    with [weight=None], a name that is not an objective, and
    ["multiclass"] without [weight]. *)
Lemma get_loss_function_resolves_witness :
  (In "multiclass_focal_loss" vocabulary
   /\ suits {[ "gamma" := PyFloat 2 ]} "multiclass_focal_loss"
   /\ exists l, get_loss_function "multiclass_focal_loss"
                  {[ "gamma" := PyFloat 2 ]} = Return (Some l))
  /\ get_loss_function "logistic" {[ "weight" := PyNone ]}
     = Return (Some (BCEWithLogitsLoss None))
  /\ get_loss_function "hinge" ∅ = Raise ValueError
  /\ get_loss_function "multiclass" ∅ = Raise (KeyError "weight").
Proof.
  split; [| split; [| split]].
  - assert (Hin : In "multiclass_focal_loss" vocabulary)
      by (apply mem_In; reflexivity).
    assert (Hs : suits {[ "gamma" := PyFloat 2 ]} "multiclass_focal_loss").
    { split.
      - intros H. simpl in H.
        repeat (destruct H as [H | H]; [discriminate H |]). contradiction.
      - intros _. rewrite dom_singleton_L. apply union_subseteq_r. }
    split; [exact Hin | split; [exact Hs |]].
    now apply (get_loss_function_resolves "multiclass_focal_loss"
                 {[ "gamma" := PyFloat 2 ]}).
  - apply (get_loss_function_resolves "logistic" {[ "weight" := PyNone ]}).
    + simpl. tauto.
    + reflexivity.
  - apply (get_loss_function_resolves "hinge" ∅).
    intros H. apply mem_In in H. discriminate H.
  - apply (get_loss_function_resolves "multiclass" ∅).
    + simpl. tauto.
    + reflexivity.
Defined.

(** C3 as it is worded fails, however "absent" is read. With no [weight]
    keyword, ["binary"] does not resolve: [kwargs["weight"]] raises
    [KeyError]. With the keyword passed as [None], the binary names
    resolve but ["binary_focal_loss"], a name of the vocabulary as well,
    does not: [FocalLoss] has no parameter [weight]. *)
Lemma get_loss_function_binary_without_weight :
  In "binary" vocabulary /\ In "binary_focal_loss" vocabulary
  /\ get_loss_function "binary" ∅ = Raise (KeyError "weight")
  /\ ~ (exists l, get_loss_function "binary" ∅ = Return l)
  /\ get_loss_function "binary_focal_loss" {[ "weight" := PyNone ]}
     = Raise TypeError.
Proof.
  split; [| split; [| split; [| split]]].
  - apply mem_In. reflexivity.
  - apply mem_In. reflexivity.
  - reflexivity.
  - intros [l H]. discriminate H.
  - reflexivity.
Qed.

(** C9. [get_loss_function] is total over the vocabulary: every name of
    it reaches one of the constructor calls and the body never falls off
    its end. The two focal names are in no list of [loss_aliases]; they
    are caught by the ["focal_loss"] substring test and, with no keyword
    given, become a [FocalLoss] with [alpha = 0.25] and [gamma = 1.0]. *)
Theorem get_loss_function_total (name : string) (kwargs : gmap string pyval) :
  In name vocabulary ->
  get_loss_function name kwargs <> Return None
  /\ (exists c, get_loss_function name kwargs = Some <$> construct c kwargs)
  /\ (name = "binary_focal_loss" \/ name = "multiclass_focal_loss" ->
      (forall family names, In (family, names) loss_aliases -> ~ In name names)
      /\ contains "focal_loss" name = true
      /\ get_loss_function name kwargs = Some <$> FocalLoss_init kwargs
      /\ get_loss_function name ∅
         = Return (Some (FocalLoss (PyFloat 0.25) (PyFloat 1)))).
Proof.
  intros Hin. split; [| split].
  - rewrite get_loss_function_route by assumption.
    destruct (construct (route name) kwargs); discriminate.
  - exists (route name). now apply get_loss_function_route.
  - intros Hfocal. split; [| split; [| split]].
    + intros family names Hal Hname. simpl in Hal.
      repeat (destruct Hal as [Hal | Hal];
              [ injection Hal as <- <-; simpl in Hname;
                destruct Hfocal as [-> | ->];
                repeat (destruct Hname as [Hname | Hname];
                        [discriminate Hname |]); contradiction
              | ]).
      contradiction.
    + destruct Hfocal as [-> | ->]; reflexivity.
    + rewrite get_loss_function_route by assumption.
      destruct Hfocal as [-> | ->]; reflexivity.
    + destruct Hfocal as [-> | ->]; reflexivity.
Qed.

Lemma get_loss_function_total_witness :
  In "multiclass_focal_loss" vocabulary
  /\ get_loss_function "multiclass_focal_loss" ∅ <> Return None
  /\ get_loss_function "multiclass_focal_loss" ∅
     = Return (Some (FocalLoss (PyFloat 0.25) (PyFloat 1))).
Proof.
  assert (Hin : In "multiclass_focal_loss" vocabulary)
    by (apply mem_In; reflexivity).
  split; [exact Hin |].
  destruct (get_loss_function_total "multiclass_focal_loss" ∅ Hin)
    as (Hnone & _ & Hfocal).
  split; [exact Hnone |].
  apply Hfocal. now right.
Defined.

End RegistryTheorems.

(* ================================================================== *)
(** * The regression losses                                             *)
(* ================================================================== *)

Module RegressionLossFacts.
Import Losses Spec.
Local Open Scope R_scope.

Lemma sum_squares_nonneg (l : list R) : 0 <= sum (map (fun x => x * x) l).
Proof.
  induction l as [| x l IH]; simpl.
  - lra.
  - nra.
Qed.

Lemma mean_squares_nonneg (l : list R) : 0 <= mean (map (fun x => x * x) l).
Proof.
  unfold mean. rewrite length_map.
  destruct l as [| x l].
  - simpl. unfold Rdiv. rewrite Rmult_0_l. lra.
  - apply Rmult_le_pos.
    + apply sum_squares_nonneg.
    + left. apply Rinv_0_lt_compat. apply lt_0_INR. simpl. lia.
Qed.

Lemma mse_same_shape (p t : Tensor R) :
  shape p = shape t ->
  mse p t = Return (scalar (mean_sq_diff (fun x => x) (data p) (data t))).
Proof.
  intros Hs. unfold mse, binop. rewrite bool_decide_eq_true_2 by assumption.
  simpl. unfold mean_sq_diff. do 3 f_equal.
  generalize (data t). induction (data p) as [| x xs IH]; intros [| y ys];
    simpl; try reflexivity.
  now rewrite IH.
Qed.

Lemma mse_scalar_nonneg (p t m : Tensor R) :
  mse p t = Return m -> exists v, m = scalar v /\ 0 <= v.
Proof.
  unfold mse. destruct (binop Rminus p t) as [d |]; simpl; [| discriminate].
  intros [= <-]. eexists. split; [reflexivity |]. apply mean_squares_nonneg.
Qed.

Lemma zip_with_map_both {A B C} (f : B -> B -> C) (g : A -> B) (xs ys : list A) :
  zip_with f (map g xs) (map g ys) = zip_with (fun x y => f (g x) (g y)) xs ys.
Proof.
  revert ys. induction xs as [| x xs IH]; intros [| y ys]; simpl;
    try reflexivity.
  now rewrite IH.
Qed.

End RegressionLossFacts.

Module RegressionLossTheorems.
Import Losses Spec RegressionLossFacts.
Local Open Scope R_scope.

(** C7. On predictions and targets that are not negative, [MSLELoss] is
    the mean squared error of [log(p + 1)] and [log(t + 1)], the very
    same value, and [RMSLELoss] is the square root of that value; on
    tensors of one shape it is the mean of the squared differences of
    the logarithms. *)
Theorem MSLE_is_MSE_of_logs (p t : Tensor R) :
  Forall (Rle 0) (data p) -> Forall (Rle 0) (data t) ->
  let lp := tmap log (tmap (fun x => x + 1) p) in
  let lt := tmap log (tmap (fun x => x + 1) t) in
  MSLELoss_forward p t = mse lp lt
  /\ RMSLELoss_forward p t = (m ← mse lp lt; Return (tmap sqrt m))
  /\ (shape p = shape t ->
      let v := mean_sq_diff (fun x => ln (x + 1)) (data p) (data t) in
      MSLELoss_forward p t = Return (scalar v)
      /\ RMSLELoss_forward p t = Return (scalar (sqrt v))).
Proof.
  intros _ _ lp lt. split; [reflexivity | split; [reflexivity |]].
  intros Hs v.
  assert (Hm : mse lp lt = Return (scalar v)).
  { rewrite mse_same_shape by exact Hs. unfold v, mean_sq_diff, lp, lt.
    simpl. rewrite !map_map. rewrite zip_with_map_both. reflexivity. }
  split.
  - exact Hm.
  - unfold RMSLELoss_forward. fold lp lt. rewrite Hm. reflexivity.
Qed.

Lemma MSLE_is_MSE_of_logs_witness :
  let p := mkTensor [2%nat] [0; 3] in
  let t := mkTensor [2%nat] [1; 3] in
  Forall (Rle 0) (data p) /\ Forall (Rle 0) (data t)
  /\ MSLELoss_forward p t
     = mse (tmap log (tmap (fun x => x + 1) p)) (tmap log (tmap (fun x => x + 1) t))
  /\ RMSLELoss_forward p t
     = Return (scalar (sqrt (mean_sq_diff (fun x => ln (x + 1)) [0; 3] [1; 3]))).
Proof.
  intros p t.
  assert (Hp : Forall (Rle 0) (data p))
    by (repeat constructor; simpl; lra).
  assert (Ht : Forall (Rle 0) (data t))
    by (repeat constructor; simpl; lra).
  split; [exact Hp | split; [exact Ht |]].
  destruct (MSLE_is_MSE_of_logs p t Hp Ht) as (Hmse & _ & Hval).
  split; [exact Hmse |].
  destruct (Hval eq_refl) as [_ Hroot]. exact Hroot.
Defined.

(** C8. Whatever the two tensors, [RMSELoss] does what the mean squared
    error does: when that raises, it raises the same, and when that
    returns [v], it returns the square root of [v], which is not negative
    and whose square is [v]. On tensors of one shape the mean squared
    error does return. *)
Theorem RMSE_squared_is_MSE (p t : Tensor R) :
  RMSELoss_forward p t = (m ← mse p t; Return (tmap sqrt m))
  /\ (forall e, mse p t = Raise e -> RMSELoss_forward p t = Raise e)
  /\ (forall m, mse p t = Return m ->
      exists v, m = scalar v
        /\ RMSELoss_forward p t = Return (scalar (sqrt v))
        /\ sqrt v * sqrt v = v
        /\ 0 <= sqrt v)
  /\ (shape p = shape t -> exists v, mse p t = Return (scalar v)).
Proof.
  split; [reflexivity | split; [| split]].
  - intros e He. unfold RMSELoss_forward. now rewrite He.
  - intros m Hm. destruct (mse_scalar_nonneg p t m Hm) as (v & -> & Hv).
    exists v. split; [reflexivity |]. split; [| split].
    + unfold RMSELoss_forward. now rewrite Hm.
    + now apply sqrt_sqrt.
    + apply sqrt_pos.
  - intros Hs. eexists. now apply mse_same_shape.
Qed.

Lemma RMSE_squared_is_MSE_witness :
  let p := mkTensor [2%nat] [1; 2] in
  let t := mkTensor [2%nat] [3; 5] in
  exists v, mse p t = Return (scalar v)
    /\ RMSELoss_forward p t = Return (scalar (sqrt v))
    /\ sqrt v * sqrt v = v.
Proof.
  intros p t.
  destruct (RMSE_squared_is_MSE p t) as (_ & _ & Hret & Hsame).
  destruct (Hsame eq_refl) as [v Hv].
  destruct (Hret _ Hv) as (v' & Heq & Hr & Hsq & _).
  injection Heq as <-.
  exists v. split; [exact Hv | split; [exact Hr | exact Hsq]].
Defined.

End RegressionLossTheorems.

(* ================================================================== *)
(** * The focal loss                                                    *)
(* ================================================================== *)

Module FocalLossFacts.
Import Losses Spec.
Local Open Scope R_scope.

Lemma blocks_ones {A} (l : list A) :
  blocks (length l) 1 l = map (fun x => [x]) l.
Proof.
  induction l as [| x l IH]; simpl; [reflexivity |].
  now rewrite take_0, drop_0, IH.
Qed.

Lemma two_class_probs_columns (logits : list R) :
  concat (zip_with (@app R)
            (map (fun x => [x]) (map (Rminus 1) (map sigmoid logits)))
            (map (fun x => [x]) (map sigmoid logits)))
  = two_class_probs logits.
Proof.
  unfold two_class_probs.
  induction logits as [| x l IH]; simpl; [reflexivity |].
  now rewrite IH.
Qed.

Lemma sigmoid_range (x : R) : 0 < sigmoid x < 1.
Proof.
  unfold sigmoid. pose proof (exp_pos (- x)) as He.
  split.
  - apply Rdiv_lt_0_compat; lra.
  - apply Rmult_lt_reg_r with (1 + exp (- x)); [lra |].
    unfold Rdiv. rewrite Rmult_assoc, Rinv_l by lra. lra.
Qed.

Lemma cat1_columns (n : nat) (a b : list R) :
  length a = n -> length b = n ->
  cat1 (mkTensor [n; 1%nat] a) (mkTensor [n; 1%nat] b)
  = Return (mkTensor [n; 2%nat]
              (concat (zip_with (@app R) (map (fun x => [x]) a)
                                         (map (fun x => [x]) b)))).
Proof.
  intros Ha Hb. unfold cat1. simpl.
  rewrite !bool_decide_eq_false_2 by discriminate.
  rewrite bool_decide_eq_true_2 by (split; reflexivity).
  subst n. rewrite blocks_ones. rewrite <- Hb, blocks_ones. reflexivity.
Qed.

Lemma mapM_outcome_map {A B} (f : A -> outcome B) (g : A -> B) (l : list A) :
  Forall (fun x => f x = Return (g x)) l ->
  mapM f l = Return (map g l).
Proof.
  induction 1 as [| x l Hx _ IH]; [reflexivity |].
  cbn [mapM]. rewrite Hx. cbn. rewrite IH. reflexivity.
Qed.

Lemma index_rows_eye2 (s : list nat) (labels : list Z) :
  Forall (fun l => l = 0%Z \/ l = 1%Z) labels ->
  index_rows (eye 2) (mkTensor s labels)
  = Return (mkTensor (s ++ [2%nat]) (flat_map (one_hot 2) labels)).
Proof.
  intros Hl. unfold index_rows. cbn [shape eye data].
  rewrite (mapM_outcome_map _ (one_hot 2)).
  - cbn. now rewrite flat_map_concat_map.
  - eapply Forall_impl; [exact Hl |].
    intros l [-> | ->]; reflexivity.
Qed.

Lemma modulating_weight_zip (a g : R) (p t : list R) :
  zip_with Rmult
    (zip_with Rplus (map (Rmult a) t)
       (map (Rmult (1 - a)) (map (Rminus 1) t)))
    (map (fun x => pow x g)
       (map (Rminus 1)
          (zip_with Rplus (zip_with Rmult p t)
             (zip_with Rmult (map (Rminus 1) p) (map (Rminus 1) t)))))
  = zip_with (modulating_weight a g) p t.
Proof.
  revert t. induction p as [| x p IH]; intros [| y t]; simpl;
    try reflexivity.
  now rewrite IH.
Qed.

Lemma _get_weight_same_shape (a g : R) (s : list nat) (p t : list R) :
  _get_weight (PyFloat a) (PyFloat g) (mkTensor s p) (mkTensor s t)
  = Return (mkTensor s (zip_with (modulating_weight a g) p t)).
Proof.
  unfold _get_weight, binop, detach. cbn [shape data tmap].
  repeat (rewrite bool_decide_eq_true_2 by reflexivity; cbn).
  now rewrite modulating_weight_zip.
Qed.

Lemma broadcast_rev_same (r : list nat) : broadcast_rev r r = Some r.
Proof.
  induction r as [| a r IH]; simpl; [reflexivity |].
  now rewrite IH, Nat.eqb_refl.
Qed.

Lemma broadcast_shapes_same (s : list nat) : broadcast_shapes s s = Some s.
Proof.
  unfold broadcast_shapes. rewrite broadcast_rev_same. simpl.
  now rewrite rev_involutive.
Qed.

Lemma probabilities_checked (l : list R) :
  Forall (fun p => 0 <= p <= 1) l ->
  forallb (fun p => if Rle_dec 0 p
                    then if Rle_dec p 1 then true else false
                    else false) l = true.
Proof.
  induction 1 as [| p l [H0 H1] _ IH]; simpl; [reflexivity |].
  destruct (Rle_dec 0 p); [| contradiction].
  destruct (Rle_dec p 1); [| contradiction].
  exact IH.
Qed.

Lemma two_class_probs_range (logits : list R) :
  Forall (fun p => 0 <= p <= 1) (two_class_probs logits).
Proof.
  unfold two_class_probs. induction logits as [| x l IH]; simpl.
  - constructor.
  - pose proof (sigmoid_range x). repeat constructor; try lra. exact IH.
Qed.

Lemma binary_cross_entropy_same_shape (s : list nat) (p t w : list R) :
  Forall (fun p => 0 <= p <= 1) p ->
  binary_cross_entropy (mkTensor s p) (mkTensor s t) (mkTensor s w)
  = Return (scalar (mean (zip3 bce_term p t w))).
Proof.
  intros Hp. unfold binary_cross_entropy, expand. cbn [shape data].
  rewrite bool_decide_eq_true_2 by reflexivity. cbn [negb].
  rewrite broadcast_shapes_same.
  rewrite bool_decide_eq_true_2 by reflexivity. cbn.
  rewrite bool_decide_eq_true_2 by reflexivity. cbn [negb].
  now rewrite probabilities_checked.
Qed.

Lemma squeeze_labels (n : nat) (tshape : list nat) (labels : list Z) :
  n <> 1%nat -> tshape = [n; 1%nat] \/ tshape = [n] ->
  squeeze (mkTensor tshape labels) = mkTensor [n] labels.
Proof.
  intros Hn Hs. unfold squeeze. cbn [shape data]. f_equal.
  destruct (Nat.eqb_spec n 1) as [| _]; [contradiction |].
  destruct Hs as [-> | ->]; cbn; destruct (Nat.eqb_spec n 1); try contradiction;
    reflexivity.
Qed.

End FocalLossFacts.

Module FocalLossTheorems.
Import Losses Spec FocalLossFacts.
Local Open Scope R_scope.

(** The binary case of [FocalLoss.forward] on two rows or more: a column
    of logits and as many labels, each 0 or 1, given as a column or as a
    vector. The input becomes the two-column matrix of
    [1 - sigmoid(logit)] and [sigmoid(logit)], the target the matrix of
    one-hot rows, the weight is [(alpha*t + (1-alpha)*(1-t)) * (1 -
    (p*t + (1-p)*(1-t)))^gamma] at every position, and the result is the
    substrate's binary cross entropy of the three: the mean over all
    positions of the weighted cross-entropy term. *)
Theorem FocalLoss_forward_binary
    (alpha gamma : R) (n : nat) (tshape : list nat)
    (logits : list R) (labels : list Z) :
  length logits = n -> length labels = n -> (2 <= n)%nat ->
  tshape = [n; 1%nat] \/ tshape = [n] ->
  Forall (fun l => l = 0%Z \/ l = 1%Z) labels ->
  let p := two_class_probs logits in
  let t := flat_map (one_hot 2) labels in
  let w := zip_with (modulating_weight alpha gamma) p t in
  FocalLoss_forward (PyFloat alpha) (PyFloat gamma)
    (mkTensor [n; 1%nat] logits) (mkTensor tshape labels)
  = binary_cross_entropy (mkTensor [n; 2%nat] p) (mkTensor [n; 2%nat] t)
      (mkTensor [n; 2%nat] w)
  /\ FocalLoss_forward (PyFloat alpha) (PyFloat gamma)
       (mkTensor [n; 1%nat] logits) (mkTensor tshape labels)
     = Return (scalar (mean (zip3 bce_term p t w))).
Proof.
  intros Hx Hl Hn Hs Hlab p t w.
  assert (Hfwd : FocalLoss_forward (PyFloat alpha) (PyFloat gamma)
                   (mkTensor [n; 1%nat] logits) (mkTensor tshape labels)
                 = binary_cross_entropy (mkTensor [n; 2%nat] p)
                     (mkTensor [n; 2%nat] t) (mkTensor [n; 2%nat] w)).
  { unfold FocalLoss_forward, long, contiguous. cbn [size shape nth_error].
    cbn [mbind outcome_bind Nat.eqb]. unfold tmap. cbn [shape data].
    rewrite cat1_columns by (now rewrite ?length_map).
    cbn [mbind outcome_bind mret outcome_ret fst snd].
    rewrite (squeeze_labels n) by (assumption || lia).
    rewrite index_rows_eye2 by assumption.
    cbn [mbind outcome_bind app].
    rewrite two_class_probs_columns. fold p t.
    rewrite _get_weight_same_shape.
    reflexivity. }
  split; [exact Hfwd |].
  rewrite Hfwd. apply binary_cross_entropy_same_shape.
  apply two_class_probs_range.
Qed.

(** The example of the docstring: four rows, [alpha = 0.25], [gamma = 1.0]. *)
Lemma FocalLoss_forward_binary_witness :
  let logits := [0.6; 0.7; 0.3; 0.8] in
  let labels := [0; 1; 0; 1]%Z in
  let p := two_class_probs logits in
  let t := flat_map (one_hot 2) labels in
  let w := zip_with (modulating_weight 0.25 1) p t in
  (length logits = 4%nat /\ length labels = 4%nat /\ (2 <= 4)%nat
   /\ Forall (fun l => l = 0%Z \/ l = 1%Z) labels)
  /\ FocalLoss_forward (PyFloat 0.25) (PyFloat 1)
       (mkTensor [4%nat; 1%nat] logits) (mkTensor [4%nat; 1%nat] labels)
     = Return (scalar (mean (zip3 bce_term p t w))).
Proof.
  intros logits labels p t w.
  assert (Hlab : Forall (fun l => l = 0%Z \/ l = 1%Z) labels)
    by (repeat constructor; auto).
  assert (Hn : (2 <= 4)%nat) by lia.
  split; [repeat split; (reflexivity || assumption) |].
  apply (FocalLoss_forward_binary 0.25 1 4 [4%nat; 1%nat] logits labels
           eq_refl eq_refl Hn (or_introl eq_refl) Hlab).
Defined.

(** C6 on the code. A single-column logit tensor of one row, with either
    label, given as a column or as a vector: [target.squeeze()] drops the
    batch axis together with the column axis, the one-hot target comes
    out as a vector of two entries and not as a matrix of one row, and
    the substrate's cross entropy raises [ValueError] on the shapes,
    whatever the logit, [alpha] and [gamma] are. The mean of the weighted
    cross-entropy terms, which is what the loss is on two rows or more,
    is not returned. *)
Theorem FocalLoss_forward_single_row (alpha gamma x : R) :
  let forward :=
    FocalLoss_forward (PyFloat alpha) (PyFloat gamma)
      (mkTensor [1%nat; 1%nat] [x]) in
  let p := two_class_probs [x] in
  let weighted_mean t :=
    scalar (mean (zip3 bce_term p t
                    (zip_with (modulating_weight alpha gamma) p t))) in
  forward (mkTensor [1%nat; 1%nat] [0%Z]) = Raise ValueError
  /\ forward (mkTensor [1%nat; 1%nat] [1%Z]) = Raise ValueError
  /\ forward (mkTensor [1%nat] [0%Z]) = Raise ValueError
  /\ forward (mkTensor [1%nat] [1%Z]) = Raise ValueError
  /\ forward (mkTensor [1%nat; 1%nat] [0%Z]) <> Return (weighted_mean (one_hot 2 0))
  /\ forward (mkTensor [1%nat; 1%nat] [1%Z]) <> Return (weighted_mean (one_hot 2 1)).
Proof.
  intros forward p weighted_mean.
  assert (H0 : forward (mkTensor [1%nat; 1%nat] [0%Z]) = Raise ValueError)
    by reflexivity.
  assert (H1 : forward (mkTensor [1%nat; 1%nat] [1%Z]) = Raise ValueError)
    by reflexivity.
  repeat split; try reflexivity.
  - rewrite H0. discriminate.
  - rewrite H1. discriminate.
Qed.

End FocalLossTheorems.

(* ================================================================== *)
(** * The model composer                                                *)
(* ================================================================== *)

Module ComposerFacts.
Import WideDeepModel ComposerSpec.

Section Facts.
Context {T : Type}.
Variable zero : T.
Variables add mul : T -> T -> T.
Context {Generator : Type}.
Variable sample : nat -> Generator -> T * Generator.
Variable MLP : list Z -> HeadOptions -> M (Generator := Generator) (Module (T := T)).
Variable add_module : Module (T := T) -> string -> Module (T := T) -> Module (T := T).

Abbreviation init := (init zero add mul sample MLP add_module).
Abbreviation forward := (forward zero add mul sample).
Implicit Types wide tab txt img head : option (Module (T := T)).

(** A failed check ends the build before anything is drawn or built. *)
Lemma init_check_raises wide tab txt img head hld opts pd g e :
  _check_model_components wide tab txt img head hld pd = Raise e ->
  init wide tab txt img head hld opts pd g = (Raise e, g).
Proof.
  intros H. unfold WideDeepModel.init, mbind, M_bind, lift. now rewrite H.
Qed.

(** What a passed check establishes. *)
Lemma check_returns_inv wide tab txt img head hld pd u :
  _check_model_components wide tab txt img head hld pd = Return u ->
  (forall w, wide = Some w -> wide_width w = Return pd)
  /\ lacks_output_dim tab = false
  /\ lacks_output_dim txt = false
  /\ lacks_output_dim img = false
  /\ (is_not_None head && is_not_None hld = false)
  /\ (is_not_None hld && negb (truthy tab) && negb (truthy txt)
        && negb (truthy img) = false)
  /\ (forall h, head = Some h ->
       exists n, head_inp_feat h = Return n
                 /\ deep_output_dim tab txt img = Return n).
Proof.
  unfold _check_model_components. intros H.
  assert (Hw : forall w, wide = Some w -> wide_width w = Return pd).
  { intros w ->. destruct (wide_width w) as [n |]; cbn in H; [| discriminate].
    unfold assert in H. case_bool_decide; [now subst | discriminate]. }
  split; [exact Hw |].
  destruct (match wide with Some _ => _ | None => _ end) as [[] |];
    cbn in H; [| discriminate].
  destruct (lacks_output_dim tab); [discriminate |].
  destruct (lacks_output_dim txt); [discriminate |].
  destruct (lacks_output_dim img); [discriminate |].
  destruct (is_not_None head && is_not_None hld); [discriminate |].
  destruct (is_not_None hld && negb (truthy tab) && negb (truthy txt)
            && negb (truthy img)); [discriminate |].
  repeat (split; [reflexivity |]).
  intros h ->. unfold deep_output_dim.
  destruct (head_inp_feat h) as [n |]; cbn in H; [| discriminate].
  exists n. split; [reflexivity |].
  destruct (add_output_dim 0 tab) as [d1 |]; cbn in H |- *; [| discriminate].
  destruct (add_output_dim d1 txt) as [d2 |]; cbn in H |- *; [| discriminate].
  destruct (add_output_dim d2 img) as [d3 |]; cbn in H |- *; [| discriminate].
  unfold assert in H. case_bool_decide; [now subst | discriminate].
Qed.

Lemma lacks_output_dim_None (b : Module (T := T)) :
  output_dim b = None -> lacks_output_dim (Some b) = true.
Proof.
  intros H. unfold lacks_output_dim. rewrite H.
  rewrite bool_decide_eq_false_2; [reflexivity |].
  intros [x Hx]. discriminate Hx.
Qed.

Lemma check_rejects wide tab txt img head hld pd :
  misconfigured wide tab txt img head hld pd ->
  exists e, _check_model_components wide tab txt img head hld pd = Raise e.
Proof.
  intros Hbad.
  destruct (_check_model_components wide tab txt img head hld pd)
    as [u | e] eqn:Hc; [| now exists e].
  exfalso. apply check_returns_inv in Hc.
  destruct Hc as (Hw & Htab & Htxt & Himg & Hboth & Hnone & Hhead).
  destruct Hbad as [w n Hwide Hn Hne | b Hb Hdim | h dims -> ->
                   | dims -> -> -> -> | h n d Hh Hn Hd Hne].
  - rewrite (Hw w Hwide) in Hn. congruence.
  - apply lacks_output_dim_None in Hdim.
    destruct Hb as [-> | [-> | ->]]; congruence.
  - discriminate Hboth.
  - discriminate Hnone.
  - destruct (Hhead h Hh) as (n' & Hn' & Hd'). congruence.
Qed.

Lemma samples_returns (fan_in n : nat) (g : Generator) :
  exists xs g', samples sample fan_in n g = (Return xs, g').
Proof.
  revert g. induction n as [| n IH]; intros g; simpl.
  - now exists [], g.
  - unfold mbind, M_bind, draw. destruct (sample fan_in g) as [x g1].
    destruct (IH g1) as (xs & g2 & ->). now exists (x :: xs), g2.
Qed.

Lemma samples_length (fan_in n : nat) (g g' : Generator) (xs : list T) :
  samples sample fan_in n g = (Return xs, g') -> length xs = n.
Proof.
  revert g g' xs. induction n as [| n IH]; intros g g' xs; simpl.
  - intros [= <- _]. reflexivity.
  - unfold mbind, M_bind, draw. destruct (sample fan_in g) as [x g1].
    destruct (samples sample fan_in n g1) as [[ys | e] g2] eqn:Hs;
      intros [= <- _].
    simpl. f_equal. now apply (IH g1 g2).
Qed.

(** What [nn.Linear] builds: a module that applies [linear] with the
    weight and the bias just drawn. *)
Lemma Linear_returns (inf outf : Z) (g : Generator) :
  (0 <= inf)%Z -> (0 <= outf)%Z ->
  exists W b g',
    length b = Z.to_nat outf
    /\ Linear zero add mul sample inf outf g
       = (Return (mkModule
                    (linear zero add mul (Z.to_nat inf) (Z.to_nat outf) W b)
                    None None
                    [[Z.to_nat outf; Z.to_nat inf]; [Z.to_nat outf]] true),
          g').
Proof.
  intros Hi Ho. unfold Linear.
  rewrite bool_decide_eq_false_2 by lia.
  unfold mbind, M_bind.
  destruct (samples_returns (Z.to_nat inf) (Z.to_nat outf * Z.to_nat inf) g)
    as (W & g1 & ->).
  destruct (samples_returns (Z.to_nat inf) (Z.to_nat outf) g1)
    as (b & g2 & Hb).
  rewrite Hb. exists W, b, g2. split; [| reflexivity].
  now apply samples_length in Hb.
Qed.

Lemma length_blocks {A} (n k : nat) (l : list A) : length (blocks n k l) = n.
Proof.
  revert l. induction n as [| n IH]; intros l; simpl; [reflexivity |].
  now rewrite IH.
Qed.

Lemma length_linear_row (inf : nat) (W b x : list T) :
  length (linear_row zero add mul inf W b x) = length b.
Proof.
  unfold linear_row. rewrite length_zip_with, length_blocks. lia.
Qed.

Lemma length_flat_map_const {A B} (f : A -> list B) (c : nat) (l : list A) :
  (forall x, length (f x) = c) -> length (flat_map f l) = (length l * c)%nat.
Proof.
  intros Hf. induction l as [| x l IH]; simpl; [reflexivity |].
  rewrite length_app, Hf, IH. reflexivity.
Qed.

(** A batch of [n] rows of [inf] features becomes [n] rows of [outf]. *)
Lemma linear_rows (inf outf n : nat) (W b : list T) (x : Tensor T) :
  length b = outf -> shape x = [n; inf] ->
  exists y, linear zero add mul inf outf W b x = Return y
            /\ shape y = [n; outf] /\ wf y.
Proof.
  intros Hb Hx. unfold linear. rewrite Hx. cbn [rev app].
  rewrite Nat.eqb_refl. cbn [negb]. eexists. split; [reflexivity |].
  split; [reflexivity |].
  unfold wf. cbn [shape data numel_of fold_right].
  rewrite (length_flat_map_const _ outf).
  - rewrite length_blocks. lia.
  - intros r. now rewrite length_linear_row.
Qed.

Lemma getitem_first {V} (k : string) (v : V) (rest : dict V) :
  getitem ((k, v) :: rest) k = Return v.
Proof. unfold getitem. simpl. now rewrite String.eqb_refl. Qed.

Lemma zip_with_repeat_zero (l : list T) (k : nat) :
  (forall x, add zero x = x) -> length l = k ->
  zip_with add (repeat zero k) l = l.
Proof.
  intros H0 <-. induction l as [| x l IH]; simpl; [reflexivity |].
  now rewrite H0, IH.
Qed.

(** Adding a tensor in place to zeros of its own shape gives that tensor. *)
Lemma add_to_zeros (y : Tensor T) :
  (forall x, add zero x = x) -> wf y ->
  binop_ add (full zero (shape y)) y = Return y.
Proof.
  intros H0 Hwf. unfold binop_, full. cbn [shape data].
  rewrite bool_decide_eq_true_2 by reflexivity.
  rewrite zip_with_repeat_zero by (assumption || now symmetry).
  now destruct y.
Qed.

End Facts.

End ComposerFacts.

Module ComposerTheorems.
Import WideDeepModel ComposerSpec ComposerFacts.

Section Theorems.
Context {T : Type}.
Variable zero : T.
Variables add mul : T -> T -> T.
Context {Generator : Type}.
Variable sample : nat -> Generator -> T * Generator.
Variable MLP : list Z -> HeadOptions -> M (Generator := Generator) (Module (T := T)).
Variable add_module : Module (T := T) -> string -> Module (T := T) -> Module (T := T).

Abbreviation init := (init zero add mul sample MLP add_module).
Abbreviation forward := (forward zero add mul sample).
Implicit Types wide tab txt img head : option (Module (T := T)).

(** C5. Each of the five configuration errors makes the build raise, at
    once: the check is the first thing [__init__] does, nothing has been
    drawn or built by then, and no model exists whose [forward] could
    run. *)
Theorem init_rejects_misconfiguration wide tab txt img head hld pd :
  misconfigured wide tab txt img head hld pd ->
  forall opts g, exists e,
    init wide tab txt img head hld opts pd g = (Raise e, g).
Proof.
  intros Hbad opts g.
  destruct (check_rejects wide tab txt img head hld pd Hbad) as [e He].
  exists e. now apply init_check_raises.
Qed.

(** C10. With no component at all and no [head_layers_dim] the check
    passes and the build succeeds. [forward] then answers a batch mapping
    whose first entry has [n] rows with the zero tensor of shape
    [(n, pred_dim)], and fails on the empty mapping. *)
Theorem forward_no_component
    (opts : HeadOptions) (pd : Z) (g : Generator)
    (k : string) (x : Tensor T) (rest : dict (Tensor T)) (n : nat) (s : list nat) :
  (0 <= pd)%Z -> shape x = n :: s ->
  _check_model_components (T := T) None None None None None None pd = Return tt
  /\ exists m,
      init None None None None None None opts pd g = (Return m, g)
      /\ (forall g', forward m ((k, x) :: rest) g'
                      = (Return (full zero [n; Z.to_nat pd]), g'))
      /\ (forall g', forward m [] g' = (Raise IndexError, g')).
Proof.
  intros Hpd Hx. split; [reflexivity |].
  exists (mkWideDeep pd None None None None None).
  split; [reflexivity | split].
  - intros g'. unfold WideDeepModel.forward, wide_out.
    cbn [wide pred_dim keys map fst].
    rewrite getitem_first. cbn [mbind outcome_bind].
      unfold size. rewrite Hx. cbn [nth_error mbind outcome_bind].
    unfold zeros. rewrite bool_decide_eq_false_2 by lia.
    reflexivity.
  - intros g'. reflexivity.
Qed.

(** C4. A model of the wide component alone answers with what the wide
    component answers. A model of one deep component alone, without a
    head, has that component followed by its own projection to [pred_dim]
    in its place; on a batch of [n] rows for which the component gives
    [n] rows of [output_dim] activations, the wide output is the zero
    tensor of shape [(n, pred_dim)] and the model answers with what the
    projected component answers. Zero plus [x] is taken to be [x]. *)
Theorem forward_single_component :
  (forall x, add zero x = x) ->
  (forall (w : Module) opts pd g,
     wide_width w = Return pd ->
     exists m,
       init (Some w) None None None None None opts pd g = (Return m, g)
       /\ forall X g', forward m X g' = (run w X "wide", g'))
  /\ (forall (s : Slot) (b : Module) d opts pd g,
       output_dim b = Some d -> (0 <= d)%Z -> (0 <= pd)%Z ->
       exists m lin g1,
         Linear zero add mul sample d pd g = (Return lin, g1)
         /\ init None (only s Tabular b) (only s Text b) (only s Image b)
                 None None opts pd g = (Return m, g1)
         /\ component m s = Some (Sequential b lin)
         /\ forall k x rest n sh xs z g',
              shape x = n :: sh ->
              getitem ((k, x) :: rest) (slot_key s) = Return xs ->
              call b xs = Return z -> shape z = [n; Z.to_nat d] ->
              exists y,
                run (Sequential b lin) ((k, x) :: rest) (slot_key s) = Return y
                /\ shape y = [n; Z.to_nat pd]
                /\ wide_out zero m ((k, x) :: rest)
                   = Return (full zero [n; Z.to_nat pd])
                /\ forward m ((k, x) :: rest) g' = (Return y, g')).
Proof.
  intros H0. split.
  - intros w opts pd g Hw.
    exists (mkWideDeep pd (Some w) None None None None). split.
    + unfold WideDeepModel.init, _check_model_components, mbind, M_bind, lift.
      rewrite Hw. cbn. unfold assert.
      rewrite bool_decide_eq_true_2 by reflexivity. reflexivity.
    + intros X g'. unfold WideDeepModel.forward, wide_out, mbind, M_bind, lift.
      cbn [wide]. destruct (run w X "wide"); reflexivity.
  - intros s b d opts pd g Hd Hd0 Hpd.
    destruct (Linear_returns zero add mul sample d pd g Hd0 Hpd)
      as (W & bias & g1 & Hbias & Hlin).
    set (lin := mkModule _ _ _ _ _) in Hlin.
    assert (Hproj : forall X xs z n,
              getitem X (slot_key s) = Return xs ->
              call b xs = Return z -> shape z = [n; Z.to_nat d] ->
              exists y, run (Sequential b lin) X (slot_key s) = Return y
                        /\ shape y = [n; Z.to_nat pd] /\ wf y).
    { intros X xs z n Hget Hcall Hz.
      destruct (linear_rows zero add mul (Z.to_nat d) (Z.to_nat pd) n W bias z
                  Hbias Hz) as (y & Hy & Hshape & Hwf).
      exists y. split; [| split; assumption].
      unfold run. rewrite Hget. cbn. rewrite Hcall. cbn. exact Hy. }
    assert (Hlacks : lacks_output_dim (Some b) = false).
    { unfold lacks_output_dim. rewrite Hd.
      now rewrite bool_decide_eq_true_2 by eauto. }
    assert (Hyes : forall X k x rest n sh y g' m,
              wide m = None -> pred_dim m = pd -> deephead m = None ->
              (forall s', component m s' = only s s' (Sequential b lin)) ->
              shape x = n :: sh -> X = (k, x) :: rest ->
              run (Sequential b lin) X (slot_key s) = Return y ->
              shape y = [n; Z.to_nat pd] -> wf y ->
              wide_out zero m X = Return (full zero [n; Z.to_nat pd])
              /\ forward m X g' = (Return y, g')).
    { intros X k x rest n sh y g' m Hwide Hpred Hhead Hcomp Hx -> Hrun Hy Hwf.
      assert (Hzeros : wide_out zero m ((k, x) :: rest)
                       = Return (full zero [n; Z.to_nat pd])).
      { unfold wide_out. rewrite Hwide, Hpred. cbn [keys map fst].
        rewrite getitem_first. cbn [mbind outcome_bind].
        unfold size. rewrite Hx. cbn [nth_error mbind outcome_bind].
        unfold zeros. now rewrite bool_decide_eq_false_2 by lia. }
      split; [exact Hzeros |]. clear Hzeros.
      unfold WideDeepModel.forward, wide_out, forward_direct, mbind, M_bind, lift.
      rewrite Hwide, Hpred, Hhead. cbn [keys map fst].
      rewrite getitem_first. cbn [mbind outcome_bind].
      unfold size. rewrite Hx. cbn [nth_error mbind outcome_bind].
      unfold zeros. rewrite bool_decide_eq_false_2 by lia.
      cbn [mbind outcome_bind].
      pose proof (Hcomp Tabular) as Ht. pose proof (Hcomp Text) as Hx'.
      pose proof (Hcomp Image) as Hi. cbn [component] in Ht, Hx', Hi.
      rewrite Ht, Hx', Hi. rewrite <- Hy.
      destruct s; cbn [slot_key] in Hrun; cbn [only];
        unfold add_branch; rewrite Hrun; cbn [mbind outcome_bind];
        rewrite (add_to_zeros zero add y H0 Hwf); reflexivity. }
    exists (mkWideDeep pd None (only s Tabular (Sequential b lin))
              (only s Text (Sequential b lin))
              (only s Image (Sequential b lin)) None), lin, g1.
    split; [exact Hlin | split; [| split]].
    + destruct s;
        unfold WideDeepModel.init, _check_model_components, mbind, M_bind, lift;
        cbn [only]; rewrite Hlacks; cbn;
        unfold with_projection, get_output_dim, mbind, M_bind, lift;
        rewrite Hd, Hlin; reflexivity.
    + destruct s; reflexivity.
    + intros k x rest n sh xs z g' Hx Hget Hcall Hz.
      destruct (Hproj _ xs z n Hget Hcall Hz) as (y & Hy & Hshape & Hwf).
      exists y. split; [exact Hy | split; [exact Hshape |]].
      eapply Hyes with (k := k) (x := x) (rest := rest) (n := n) (sh := sh);
        [ reflexivity | reflexivity | reflexivity
        | intros s'; destruct s, s'; reflexivity
        | assumption | reflexivity | assumption .. ].
Qed.

(** Without a head nothing is drawn when the model is called: the answer
    is a function of the model and of the batch alone. *)
Lemma forward_direct_pure (self : WideDeep) (X : dict (Tensor T)) :
  truthy (deephead self) = false ->
  exists r, forall g, forward self X g = (r, g).
Proof.
  intros Hh.
  exists (out ← wide_out zero self X;
          out ← add_branch add out (deeptabular self) X "deeptabular";
          out ← add_branch add out (deeptext self) X "deeptext";
          add_branch add out (deepimage self) X "deepimage").
  intros g. unfold WideDeepModel.forward, forward_direct, mbind at 1, M_bind, lift.
  destruct (wide_out zero self X) as [out |]; cbn [mbind outcome_bind].
  2: reflexivity.
  assert (Hd : forward_direct add self X out g
               = (out ← add_branch add out (deeptabular self) X "deeptabular";
                  out ← add_branch add out (deeptext self) X "deeptext";
                  add_branch add out (deepimage self) X "deepimage", g)).
  { unfold forward_direct, mbind at 1 2 3, M_bind, lift.
    destruct (add_branch add out (deeptabular self) X "deeptabular") as [o1 |];
      cbn [mbind outcome_bind]; [| reflexivity].
    destruct (add_branch add o1 (deeptext self) X "deeptext") as [o2 |];
      cbn [mbind outcome_bind]; [| reflexivity].
    destruct (add_branch add o2 (deepimage self) X "deepimage") as [o3 |];
      reflexivity. }
  destruct (deephead self) as [h |]; [| exact Hd].
  cbn [truthy] in Hh. rewrite Hh. exact Hd.
Qed.

(** With a head, the layer that connects the head to the output neurons
    is built, and its weights drawn, inside the call: the answer is the
    wide output plus a linear map, drawn at the state the generator is in,
    of what the head returns. *)
Lemma forward_head_draws (self : WideDeep) (head : Module)
    (X : dict (Tensor T)) (out deepside deephead_out : Tensor T) (n : nat)
    (g : Generator) :
  deephead self = Some head -> truth head = true ->
  wide_out zero self X = Return out ->
  deepside_of self X = Return deepside ->
  call head deepside = Return deephead_out ->
  size deephead_out 1 = Return n ->
  forward self X g
  = (deepside_linear ← Linear zero add mul sample (Z.of_nat n) (pred_dim self);
     y ← lift (call deepside_linear deephead_out);
     lift (binop_ add out y)) g.
Proof.
  intros Hh Ht Hout Hds Hcall Hn.
  unfold WideDeepModel.forward, forward_head. rewrite Hh, Ht.
  unfold mbind at 1, M_bind at 1, lift at 1. rewrite Hout.
  unfold mbind at 1, M_bind at 1, lift at 1. rewrite Hds.
  unfold mbind at 1, M_bind at 1, lift at 1. rewrite Hcall.
  unfold mbind at 1, M_bind at 1, lift at 1. rewrite Hn.
  reflexivity.
Qed.

End Theorems.

End ComposerTheorems.

(* ================================================================== *)
(** * The composer at work in the small setting                         *)
(* ================================================================== *)

Module ComposerRuns.
Import WideDeepModel ComposerSpec ComposerTheorems.
Import Toy(none).
Local Open Scope Z_scope.

Lemma init_rejects_misconfiguration_witness :
  let y := mkTensor [2%nat; 2%nat] [1; 2; 3; 4] in
  (exists e, Toy.init (Some (Toy.const_wide 2 y)) none none none none None
               default_head_options 1 0 = (Raise e, 0))
  /\ (exists e, Toy.init none none (Some (Toy.user_head 1)) none none None
                  default_head_options 1 0 = (Raise e, 0))
  /\ (exists e, Toy.init none (Some (Toy.passthrough 1)) none none
                  (Some (Toy.user_head 1)) (Some [4])
                  default_head_options 1 0 = (Raise e, 0))
  /\ (exists e, Toy.init none none none none none (Some [4])
                  default_head_options 1 0 = (Raise e, 0))
  /\ (exists e, Toy.init none (Some (Toy.passthrough 1)) none none
                  (Some (Toy.user_head 3)) None
                  default_head_options 1 0 = (Raise e, 0)).
Proof.
  intros y. repeat split.
  - apply init_rejects_misconfiguration.
    now apply (wide_width_differs _ _ _ _ _ _ _ (Toy.const_wide 2 y) 2).
  - apply init_rejects_misconfiguration.
    apply (output_dim_missing _ _ _ _ _ _ _ (Toy.user_head 1)); [| reflexivity].
    right. now left.
  - apply init_rejects_misconfiguration.
    now apply (head_given_twice _ _ _ _ _ _ _ (Toy.user_head 1) [4]).
  - apply init_rejects_misconfiguration.
    now apply (head_without_deep _ _ _ _ _ _ _ [4]).
  - apply init_rejects_misconfiguration.
    now apply (head_width_differs _ _ _ _ _ _ _ (Toy.user_head 3) 3 1).
Defined.

Lemma forward_no_component_witness :
  let x := mkTensor [3%nat; 2%nat] [1; 2; 3; 4; 5; 6] in
  (0 <= 2 /\ shape x = [3%nat; 2%nat])
  /\ exists m,
      Toy.init none none none none none None default_head_options 2 0
        = (Return m, 0)
      /\ Toy.forward m [("deeptabular", x)] 0
         = (Return (mkTensor [3%nat; 2%nat] [0; 0; 0; 0; 0; 0]), 0)
      /\ Toy.forward m [] 0 = (Raise IndexError, 0).
Proof.
  intros x.
  assert (Hpd : 0 <= 2) by lia.
  assert (Hx : shape x = [3%nat; 2%nat]) by reflexivity.
  split; [split; assumption |].
  destruct (forward_no_component 0 Z.add Z.mul Toy.sample Toy.MLP
              Toy.add_module default_head_options 2 0 "deeptabular" x []
              3 [2%nat] Hpd Hx) as (_ & m & Hinit & Hfwd & Hempty).
  exists m. split; [exact Hinit | split].
  - apply Hfwd.
  - apply Hempty.
Defined.

Lemma forward_single_component_witness :
  let y := mkTensor [2%nat; 1%nat] [3; 4] in
  let X := [("wide", mkTensor [2%nat; 1%nat] [7; 8])] in
  (forall x, 0 + x = x)
  /\ (exists m,
       Toy.init (Some (Toy.const_wide 1 y)) none none none none None
         default_head_options 1 0 = (Return m, 0)
       /\ Toy.forward m X 0 = (Return y, 0))
  /\ (exists m,
       Toy.init none none none (Some (Toy.passthrough 1)) none None
         default_head_options 1 0 = (Return m, 2)
       /\ Toy.forward m [("deepimage", mkTensor [1%nat; 1%nat] [5])] 2
          = (Return (mkTensor [1%nat; 1%nat] [1]), 2)).
Proof.
  intros y X.
  destruct (forward_single_component 0 Z.add Z.mul Toy.sample Toy.MLP
              Toy.add_module Z.add_0_l) as [Hwide Hdeep].
  split; [exact Z.add_0_l | split].
  - destruct (Hwide (Toy.const_wide 1 y) default_head_options 1 0 eq_refl)
      as (m & Hinit & Hfwd).
    exists m. split; [exact Hinit |]. apply Hfwd.
  - assert (H0 : 0 <= 1) by lia.
    destruct (Hdeep Image (Toy.passthrough 1) 1 default_head_options 1 0
                eq_refl H0 H0) as (m & lin & g1 & Hlin & Hinit & _ & Hfwd).
    assert (Hlin' : Linear 0 Z.add Z.mul Toy.sample 1 1 0
                    = (Return (mkModule (linear 0 Z.add Z.mul 1 1 [0] [1])
                                 None None [[1%nat; 1%nat]; [1%nat]] true), 2))
      by reflexivity.
    rewrite Hlin' in Hlin. injection Hlin as <- <-.
    exists m. split; [exact Hinit |].
    destruct (Hfwd "deepimage" (mkTensor [1%nat; 1%nat] [5]) [] 1%nat [1%nat]
                (mkTensor [1%nat; 1%nat] [5]) (mkTensor [1%nat; 1%nat] [5]) 2
                eq_refl eq_refl eq_refl eq_refl) as (out & Hout & _ & _ & Hres).
    injection Hout as <-. exact Hres.
Defined.

(** The head is fed the activations in the order tabular, text, image, a
    component that is not there being skipped. *)
Example deepside_in_order :
  let X := [ ("deepimage", mkTensor [1%nat; 1%nat] [3]);
             ("deeptext", mkTensor [1%nat; 2%nat] [21; 22]);
             ("deeptabular", mkTensor [1%nat; 1%nat] [1]) ] in
  let p := Some (Toy.passthrough 1) in
  let h := Some (Toy.user_head 4) in
  deepside_of (mkWideDeep 1 none p p p h) X
    = Return (mkTensor [1%nat; 4%nat] [1; 21; 22; 3])
  /\ deepside_of (mkWideDeep 1 none none p p h) X
     = Return (mkTensor [1%nat; 3%nat] [21; 22; 3])
  /\ deepside_of (mkWideDeep 1 none p none p h) X
     = Return (mkTensor [1%nat; 2%nat] [1; 3]).
Proof. repeat split. Qed.

(** C1 on the code. A model with a user-supplied head, called twice on
    the same batch: the layer between the head and the output is drawn
    anew in each call, and the two answers differ. *)
Theorem forward_twice_differs :
  Toy.init none (Some (Toy.passthrough 1)) none none
    (Some (Toy.user_head 1)) None default_head_options 1 0
  = (Return Toy.headed, 0)
  /\ Toy.forward Toy.headed (Toy.X1 2) 0
     = (Return (mkTensor [1%nat; 1%nat] [1]), 2)
  /\ Toy.forward Toy.headed (Toy.X1 2) 2
     = (Return (mkTensor [1%nat; 1%nat] [7]), 4)
  /\ fst (Toy.forward Toy.headed (Toy.X1 2) 0)
     <> fst (Toy.forward Toy.headed (Toy.X1 2)
               (snd (Toy.forward Toy.headed (Toy.X1 2) 0))).
Proof.
  split; [reflexivity |].
  split; [reflexivity | split; [reflexivity |]].
  intros H. discriminate H.
Qed.

(** C2 on the code. A model with a declarative head of one hidden layer:
    the head built by [__init__] ends in [head_out] and maps the batch to
    39, and the answer of [forward] is not the wide output, here zero,
    plus 39: a second linear layer, drawn in the call, is applied to the
    39 first. *)
Theorem forward_declarative_head_reprojects :
  exists m head,
    Toy.init none (Some (Toy.passthrough 1)) none none none (Some [2])
      default_head_options 1 0 = (Return m, 7)
    /\ deephead m = Some head
    /\ call head (mkTensor [1%nat; 1%nat] [2])
       = Return (mkTensor [1%nat; 1%nat] [39])
    /\ Toy.forward m (Toy.X1 2) 7
       = (Return (mkTensor [1%nat; 1%nat] [7 * 39 + 8]), 9)
    /\ fst (Toy.forward m (Toy.X1 2) 7)
       <> Return (mkTensor [1%nat; 1%nat] [0 + 39]).
Proof.
  eexists. eexists. split; [vm_compute; reflexivity |].
  split; [reflexivity |].
  split; [reflexivity | split; [reflexivity |]].
  intros H. discriminate H.
Qed.

End ComposerRuns.

(* ================================================================== *)
(** * More on the loss registry                                         *)
(* ================================================================== *)

Module DictFacts.

Lemma get_setitem_eq {V} (d : dict V) k v : get (setitem d k v) k = Some v.
Proof.
  induction d as [| [k' v'] d IH]; simpl.
  - now rewrite String.eqb_refl.
  - destruct (String.eqb_spec k k') as [-> | Hne]; simpl.
    + now rewrite String.eqb_refl.
    + destruct (String.eqb_spec k k'); [contradiction | exact IH].
Qed.

Lemma get_setitem_ne {V} (d : dict V) k k' v :
  k' <> k -> get (setitem d k v) k' = get d k'.
Proof.
  intros Hne. induction d as [| [k0 v0] d IH]; simpl.
  - destruct (String.eqb_spec k' k); [contradiction | reflexivity].
  - destruct (String.eqb_spec k k0) as [-> | Hk]; simpl.
    + destruct (String.eqb_spec k' k0); [contradiction | reflexivity].
    + destruct (String.eqb_spec k' k0); [reflexivity | exact IH].
Qed.

Lemma get_In {V} (d : dict V) k v : get d k = Some v -> In (k, v) d.
Proof.
  induction d as [| [k' v'] d IH]; simpl; [discriminate |].
  destruct (String.eqb_spec k k') as [-> | _].
  - intros [= ->]. now left.
  - intros H. right. now apply IH.
Qed.

Lemma get_fill_inv {V} (pairs : list (string * V)) (d : dict V) k v :
  get (fill pairs d) k = Some v -> In (k, v) pairs \/ get d k = Some v.
Proof.
  revert d. induction pairs as [| [k0 v0] ps IH]; intros d; simpl.
  - now right.
  - intros H. destruct (IH _ H) as [Hin | Hget].
    + left. now right.
    + destruct (String.eqb_spec k k0) as [-> | Hne].
      * rewrite get_setitem_eq in Hget. injection Hget as <-. left. now left.
      * rewrite get_setitem_ne in Hget by assumption. now right.
Qed.

Lemma get_fill_other {V} (pairs : list (string * V)) (d : dict V) k :
  ~ In k (map fst pairs) -> get (fill pairs d) k = get d k.
Proof.
  revert d. induction pairs as [| [k0 v0] ps IH]; intros d Hout; simpl.
  - reflexivity.
  - simpl in Hout. rewrite IH by tauto.
    apply get_setitem_ne. intros ->. apply Hout. now left.
Qed.

Lemma get_fill {V} (pairs : list (string * V)) (d : dict V) k v :
  List.NoDup (map fst pairs) -> In (k, v) pairs ->
  get (fill pairs d) k = Some v.
Proof.
  revert d. induction pairs as [| [k0 v0] ps IH]; intros d Hnd Hin; simpl.
  - contradiction.
  - inversion Hnd as [| ? ? Hout Hnd']; subst.
    destruct Hin as [[= -> ->] | Hin].
    + rewrite get_fill_other by assumption. apply get_setitem_eq.
    + now apply IH.
Qed.

End DictFacts.

Module RegistryMore.
Import Losses Spec RegistryFacts DictFacts.

(** The pairs the comprehension of [objective_to_method] runs through. *)
Lemma objective_to_method_fill :
  objective_to_method
  = fill (flat_map (fun '(method, objs) => map (fun obj => (obj, method)) objs)
            method_to_objec) [].
Proof. reflexivity. Qed.

Lemma objective_pairs_NoDup :
  List.NoDup
    (map fst (flat_map (fun '(method, objs) =>
                          map (fun obj : string => (obj, method)) objs)
                method_to_objec)).
Proof.
  apply NoDup_ListNoDup. apply (bool_decide_unpack _). vm_compute. reflexivity.
Qed.

Lemma In_objective_pairs obj m :
  In (obj, m) (flat_map (fun '(method, objs) =>
                           map (fun obj : string => (obj, method)) objs)
                 method_to_objec)
  <-> exists objs, get method_to_objec m = Some objs /\ In obj objs.
Proof.
  rewrite in_flat_map. split.
  - intros ([m' objs] & Htab & Hin). apply in_map_iff in Hin.
    destruct Hin as (o & [= -> ->] & Ho). exists objs. split; [| exact Ho].
    simpl in Htab.
    repeat (destruct Htab as [[= <- <-] | Htab]; [reflexivity |]).
    contradiction.
  - intros (objs & Hget & Hin). exists (m, objs). split.
    + now apply get_In.
    + apply in_map_iff. now exists obj.
Qed.

(** X1. [objective_to_method] turns [method_to_objec] round: an objective is
    mapped to a method exactly when it is listed under that method. *)
Theorem objective_to_method_inverts (obj m : string) :
  get objective_to_method obj = Some m
  <-> exists objs, get method_to_objec m = Some objs /\ In obj objs.
Proof.
  rewrite <- In_objective_pairs, objective_to_method_fill. split.
  - intros H. apply get_fill_inv in H. destruct H as [H | H];
      [exact H | discriminate H].
  - apply get_fill. apply objective_pairs_NoDup.
Qed.

Lemma objective_to_method_inverts_witness :
  (exists objs, get method_to_objec "regression" = Some objs /\ In "rmsle" objs)
  /\ get objective_to_method "rmsle" = Some "regression".
Proof.
  assert (H : exists objs, get method_to_objec "regression" = Some objs
                           /\ In "rmsle" objs)
    by (eexists; split; [reflexivity | simpl; tauto]).
  split; [exact H |].
  exact (proj2 (objective_to_method_inverts "rmsle" "regression") H).
Defined.

(** X2. Two spellings that [loss_aliases] lists together resolve alike,
    whatever the keyword arguments: to the same loss or to the same
    exception. *)
Theorem aliases_resolve_alike (family a b : string) (kwargs : gmap string pyval) :
  In a (aliases family) -> In b (aliases family) ->
  get_loss_function a kwargs = get_loss_function b kwargs.
Proof.
  unfold aliases, loss_aliases, get.
  repeat (destruct (String.eqb family _);
          [ cbn [default]; intros Ha Hb; simpl in Ha, Hb;
            repeat (destruct Ha as [<- | Ha]; [| try contradiction]);
            repeat (destruct Hb as [<- | Hb]; [| try contradiction]);
            reflexivity
          | ]).
  intros [].
Qed.

Lemma aliases_resolve_alike_witness :
  In "mse" (aliases "regression") /\ In "l2" (aliases "regression")
  /\ get_loss_function "mse" ∅ = get_loss_function "l2" ∅.
Proof.
  assert (Ha : In "mse" (aliases "regression")) by (simpl; tauto).
  assert (Hb : In "l2" (aliases "regression")) by (simpl; tauto).
  split; [exact Ha | split; [exact Hb |]].
  exact (aliases_resolve_alike "regression" "mse" "l2" ∅ Ha Hb).
Defined.

End RegistryMore.

Module RegistryKeywords.
Import Losses Spec RegistryFacts.

(** X3. A focal name takes the keywords [alpha] and [gamma], each with its
    default, and any other keyword is a [TypeError]. *)
Theorem focal_names_keywords (name : string) (kwargs : gmap string pyval) :
  name = "binary_focal_loss" \/ name = "multiclass_focal_loss" ->
  (dom kwargs ⊆ ({[ "alpha"; "gamma" ]} : gset string) ->
   get_loss_function name kwargs
   = Return (Some (FocalLoss (default (PyFloat 0.25) (kwargs !! "alpha"))
                             (default (PyFloat 1) (kwargs !! "gamma")))))
  /\ (forall k v, kwargs !! k = Some v -> k <> "alpha" -> k <> "gamma" ->
      get_loss_function name kwargs = Raise TypeError).
Proof.
  intros Hname.
  assert (Hroute : get_loss_function name kwargs = Some <$> FocalLoss_init kwargs).
  { rewrite get_loss_function_route
      by (destruct Hname as [-> | ->]; apply mem_In; reflexivity).
    destruct Hname as [-> | ->]; reflexivity. }
  rewrite Hroute. unfold FocalLoss_init. split.
  - intros Hdom. now rewrite bool_decide_eq_true_2.
  - intros k v Hk Ha Hg. rewrite bool_decide_eq_false_2; [reflexivity |].
    intros Hdom. assert (Hin : k ∈ dom kwargs) by (apply elem_of_dom; eauto).
    apply Hdom in Hin. apply elem_of_union in Hin.
    destruct Hin as [Hin | Hin]; apply elem_of_singleton in Hin; contradiction.
Qed.

Lemma focal_names_keywords_witness :
  get_loss_function "binary_focal_loss" {[ "gamma" := PyFloat 2 ]}
    = Return (Some (FocalLoss (PyFloat 0.25) (PyFloat 2)))
  /\ get_loss_function "binary_focal_loss" {[ "weight" := PyNone ]}
     = Raise TypeError.
Proof.
  destruct (focal_names_keywords "binary_focal_loss" {[ "gamma" := PyFloat 2 ]}
              (or_introl eq_refl)) as [Hok _].
  destruct (focal_names_keywords "binary_focal_loss" {[ "weight" := PyNone ]}
              (or_introl eq_refl)) as [_ Hbad].
  split.
  - apply Hok. rewrite dom_singleton_L. apply union_subseteq_r.
  - apply (Hbad "weight" PyNone); [reflexivity | discriminate | discriminate].
Defined.

(** X4. The names of the five losses without a weight resolve whatever the
    keyword arguments are, each family to its own loss. *)
Theorem unweighted_names_resolve (name : string) (kwargs : gmap string pyval) :
  (In name (aliases "regression") ->
   get_loss_function name kwargs = Return (Some MSELoss))
  /\ (In name (aliases "mean_absolute_error") ->
      get_loss_function name kwargs = Return (Some L1Loss))
  /\ (In name (aliases "mean_squared_log_error") ->
      get_loss_function name kwargs = Return (Some MSLELoss))
  /\ (In name (aliases "root_mean_squared_error") ->
      get_loss_function name kwargs = Return (Some RMSELoss))
  /\ (In name (aliases "root_mean_squared_log_error") ->
      get_loss_function name kwargs = Return (Some RMSLELoss)).
Proof.
  repeat split; intros Hin; simpl in Hin;
    repeat (destruct Hin as [<- | Hin]; [reflexivity |]); contradiction.
Qed.

Lemma unweighted_names_resolve_witness :
  In "rmse" (aliases "root_mean_squared_error")
  /\ get_loss_function "rmse" {[ "weight" := PyNone ]} = Return (Some RMSELoss).
Proof.
  assert (H : In "rmse" (aliases "root_mean_squared_error"))
    by (simpl; tauto).
  split; [exact H |].
  destruct (unweighted_names_resolve "rmse" {[ "weight" := PyNone ]})
    as (_ & _ & _ & Hr & _).
  exact (Hr H).
Defined.

End RegistryKeywords.

(* ================================================================== *)
(** * More on the focal loss                                            *)
(* ================================================================== *)

Module FocalLossEval.
Import Losses Spec LossSpec FocalLossFacts.
Local Open Scope R_scope.

Lemma row_flat_map {A B} (f : A -> list B) (c : nat) (l : list A) (i : nat) (x : A) :
  l !! i = Some x -> (forall y, length (f y) = c) ->
  firstn c (skipn (i * c) (flat_map f l)) = f x.
Proof.
  intros Hi Hf. revert i Hi. induction l as [| y l IH]; intros [| i] Hi;
    try discriminate Hi.
  - injection Hi as ->. simpl. rewrite drop_0.
    rewrite <- (Hf x). apply take_app_length.
  - cbn [flat_map]. replace (S i * c)%nat with (length (f y) + i * c)%nat
      by (rewrite Hf; simpl; lia).
    rewrite drop_app_add. now apply IH.
Qed.

Lemma row_eye (c i : nat) :
  (i < c)%nat ->
  row c (eye c) i = map (fun j => if Nat.eqb i j then 1 else 0) (seq 0 c).
Proof.
  intros Hi. unfold row, eye. cbn [data].
  apply (row_flat_map
           (fun i => map (fun j => if Nat.eqb i j then 1 else 0) (seq 0 c))).
  - now apply lookup_seq_lt.
  - intros y. now rewrite length_map, length_seq.
Qed.

Lemma index_rows_eye (c : nat) (s : list nat) (labels : list Z) :
  Forall (fun l => 0 <= l < Z.of_nat c)%Z labels ->
  index_rows (eye c) (mkTensor s labels)
  = Return (mkTensor (s ++ [c]) (flat_map (one_hot c) labels)).
Proof.
  intros Hl. unfold index_rows. cbn [shape eye data].
  rewrite (mapM_outcome_map _ (one_hot c)).
  - cbn. now rewrite flat_map_concat_map.
  - eapply Forall_impl; [exact Hl |].
    intros l Hrange. cbn beta in Hrange |- *.
    rewrite bool_decide_eq_true_2 by exact Hrange.
    f_equal. unfold one_hot. apply row_eye. lia.
Qed.

Lemma sigmoid_probs_range (logits : list R) :
  Forall (fun p => 0 <= p <= 1) (map sigmoid logits).
Proof.
  induction logits as [| x l IH]; simpl; constructor; [| exact IH].
  pose proof (sigmoid_range x). lra.
Qed.

Lemma class_probs_range (c : nat) (logits : list R) :
  Forall (fun p => 0 <= p <= 1) (class_probs c logits).
Proof.
  unfold class_probs. destruct (Nat.eqb c 1).
  - apply two_class_probs_range.
  - apply sigmoid_probs_range.
Qed.

Lemma one_hot_bits (c : nat) (labels : list Z) :
  Forall (fun t => t = 0 \/ t = 1) (flat_map (one_hot c) labels).
Proof.
  induction labels as [| l ls IH]; simpl; [constructor |].
  apply Forall_app. split; [| exact IH].
  unfold one_hot. apply Forall_map. apply Forall_forall. intros j _.
  cbn beta. destruct (Nat.eqb (Z.to_nat l) j); auto.
Qed.

(** What [forward] returns on a batch of at least two rows with labels
    that are class indices, in the binary and in the multiclass case. *)
Lemma FocalLoss_forward_eval (alpha gamma : R) (n c : nat) (tshape : list nat)
    (logits : list R) (labels : list Z) :
  labelled_batch n c tshape logits labels ->
  FocalLoss_forward (PyFloat alpha) (PyFloat gamma)
    (mkTensor [n; c] logits) (mkTensor tshape labels)
  = Return (scalar (focal_value alpha gamma (class_probs c logits)
                      (flat_map (one_hot (num_classes c)) labels))).
Proof.
  intros (Hc & Hn & Hx & Hl & Hs & Hlab).
  unfold FocalLoss_forward, long, contiguous, focal_value, class_probs.
  unfold num_classes in *. cbn [size shape nth_error mbind outcome_bind].
  destruct (Nat.eqb_spec c 1) as [-> | Hc1].
  - unfold tmap. cbn [shape data].
    rewrite cat1_columns by (rewrite ?length_map; lia).
    cbn [mbind outcome_bind mret outcome_ret fst snd].
    rewrite (squeeze_labels n) by (assumption || lia).
    rewrite index_rows_eye by assumption.
    cbn [mbind outcome_bind app].
    rewrite two_class_probs_columns, _get_weight_same_shape.
    cbn [mbind outcome_bind].
    apply binary_cross_entropy_same_shape, two_class_probs_range.
  - unfold tmap. cbn [shape data size nth_error mbind outcome_bind fst snd].
    rewrite (squeeze_labels n) by (assumption || lia).
    rewrite index_rows_eye by assumption.
    cbn [mbind outcome_bind app].
    rewrite _get_weight_same_shape. cbn [mbind outcome_bind].
    apply binary_cross_entropy_same_shape, sigmoid_probs_range.
Qed.

End FocalLossEval.

Module FocalLossBounds.
Import Losses Spec LossSpec FocalLossFacts FocalLossEval.
Local Open Scope R_scope.

Lemma pow_nonneg (x g : R) : 0 <= pow x g.
Proof.
  unfold pow. destruct (Rlt_dec 0 x).
  - unfold Rpower. left. apply exp_pos.
  - destruct (Req_dec_T g 0); lra.
Qed.

Lemma pow_zero_exponent (x : R) : pow x 0 = 1.
Proof.
  unfold pow. destruct (Rlt_dec 0 x).
  - now apply Rpower_O.
  - destruct (Req_dec_T 0 0); [reflexivity | contradiction].
Qed.

Lemma pow_le_1 (x g : R) : x <= 1 -> 0 <= g -> pow x g <= 1.
Proof.
  intros Hx Hg. unfold pow. destruct (Rlt_dec 0 x) as [Hpos |].
  - unfold Rpower. rewrite <- exp_0.
    assert (Hln : ln x <= 0).
    { rewrite <- ln_1. destruct Hx as [Hlt | ->]; [| lra].
      left. now apply ln_increasing. }
    assert (Hprod : g * ln x <= 0) by nra.
    destruct Hprod as [Hlt | ->]; [| lra].
    left. now apply exp_increasing.
  - destruct (Req_dec_T g 0); lra.
Qed.

Lemma clog_nonpos (p : R) : p <= 1 -> clog p <= 0.
Proof.
  intros Hp. unfold clog. destruct (Rlt_dec 0 p) as [Hpos |]; [| lra].
  apply Rmax_lub; [| lra].
  rewrite <- ln_1. destruct Hp as [Hlt | ->]; [| lra].
  left. now apply ln_increasing.
Qed.

(** The cross-entropy part of a term is not positive. *)
Lemma entropy_nonpos (p t : R) :
  0 <= p <= 1 -> t = 0 \/ t = 1 -> t * clog p + (1 - t) * clog (1 - p) <= 0.
Proof.
  intros Hp Ht.
  pose proof (clog_nonpos p) as H1. pose proof (clog_nonpos (1 - p)) as H2.
  destruct Ht as [-> | ->]; lra.
Qed.

Lemma bce_term_mono (p t w1 w2 : R) :
  0 <= p <= 1 -> t = 0 \/ t = 1 -> w1 <= w2 ->
  bce_term p t w1 <= bce_term p t w2.
Proof.
  intros Hp Ht Hw. unfold bce_term.
  pose proof (entropy_nonpos p t Hp Ht). nra.
Qed.

Lemma bce_term_nonneg (p t w : R) :
  0 <= p <= 1 -> t = 0 \/ t = 1 -> 0 <= w -> 0 <= bce_term p t w.
Proof.
  intros Hp Ht Hw. unfold bce_term.
  pose proof (entropy_nonpos p t Hp Ht). nra.
Qed.

Lemma modulating_weight_nonneg (alpha gamma p t : R) :
  0 <= alpha <= 1 -> t = 0 \/ t = 1 -> 0 <= modulating_weight alpha gamma p t.
Proof.
  intros Ha Ht. unfold modulating_weight.
  apply Rmult_le_pos; [| apply pow_nonneg].
  destruct Ht as [-> | ->]; lra.
Qed.

Lemma modulating_weight_gamma_0 (alpha p t : R) :
  modulating_weight alpha 0 p t = alpha_term alpha p t.
Proof.
  unfold modulating_weight, alpha_term. rewrite pow_zero_exponent. lra.
Qed.

Lemma modulating_weight_le (alpha gamma p t : R) :
  0 <= alpha <= 1 -> 0 <= gamma -> 0 <= p <= 1 -> t = 0 \/ t = 1 ->
  modulating_weight alpha gamma p t <= modulating_weight alpha 0 p t.
Proof.
  intros Ha Hg Hp Ht. rewrite modulating_weight_gamma_0.
  unfold modulating_weight, alpha_term.
  assert (Hpow : pow (1 - (p * t + (1 - p) * (1 - t))) gamma <= 1).
  { apply pow_le_1; [| assumption]. destruct Ht as [-> | ->]; lra. }
  assert (Hat : 0 <= alpha * t + (1 - alpha) * (1 - t))
    by (destruct Ht as [-> | ->]; lra).
  nra.
Qed.

Lemma zip3_zip_with (f : R -> R -> R -> R) (g : R -> R -> R) (p t : list R) :
  zip3 f p t (zip_with g p t) = zip_with (fun x y => f x y (g x y)) p t.
Proof.
  revert t. induction p as [| x p IH]; intros [| y t]; simpl;
    try reflexivity.
  now rewrite IH.
Qed.

Lemma inv_INR_nonneg (n : nat) : 0 <= / INR n.
Proof.
  destruct n as [| n].
  - simpl. rewrite Rinv_0. lra.
  - left. apply Rinv_0_lt_compat. apply lt_0_INR. lia.
Qed.

(** Termwise comparison of two lists built over the same probabilities
    and targets carries over to their means. *)
Lemma mean_zip_with_le (f g : R -> R -> R) (p t : list R) :
  Forall (fun x => 0 <= x <= 1) p -> Forall (fun y => y = 0 \/ y = 1) t ->
  (forall x y, 0 <= x <= 1 -> y = 0 \/ y = 1 -> f x y <= g x y) ->
  mean (zip_with f p t) <= mean (zip_with g p t).
Proof.
  intros Hp Ht Hfg. unfold mean. rewrite !length_zip_with.
  apply Rmult_le_compat_r; [apply inv_INR_nonneg |].
  revert t Ht. induction Hp as [| x p Hx _ IH]; intros t Ht; [simpl; lra |].
  destruct Ht as [| y t Hy Ht]; simpl; [lra |].
  specialize (IH t Ht). specialize (Hfg x y Hx Hy). lra.
Qed.

Lemma mean_zeros (p t : list R) : mean (zip_with (fun _ _ => 0) p t) = 0.
Proof.
  unfold mean.
  assert (Hs : sum (zip_with (fun _ _ : R => 0) p t) = 0).
  { revert t. induction p as [| x p IH]; intros [| y t]; simpl;
      try reflexivity.
    rewrite IH. lra. }
  rewrite Hs. unfold Rdiv. apply Rmult_0_l.
Qed.

Lemma focal_value_nonneg (alpha gamma : R) (p t : list R) :
  0 <= alpha <= 1 ->
  Forall (fun x => 0 <= x <= 1) p -> Forall (fun y => y = 0 \/ y = 1) t ->
  0 <= focal_value alpha gamma p t.
Proof.
  intros Ha Hp Ht. unfold focal_value. rewrite zip3_zip_with.
  rewrite <- (mean_zeros p t). apply mean_zip_with_le; try assumption.
  intros x y Hx Hy. apply bce_term_nonneg; try assumption.
  now apply modulating_weight_nonneg.
Qed.

Lemma focal_value_le_gamma_0 (alpha gamma : R) (p t : list R) :
  0 <= alpha <= 1 -> 0 <= gamma ->
  Forall (fun x => 0 <= x <= 1) p -> Forall (fun y => y = 0 \/ y = 1) t ->
  focal_value alpha gamma p t <= focal_value alpha 0 p t.
Proof.
  intros Ha Hg Hp Ht. unfold focal_value. rewrite !zip3_zip_with.
  apply mean_zip_with_le; try assumption.
  intros x y Hx Hy. apply bce_term_mono; try assumption.
  now apply modulating_weight_le.
Qed.

End FocalLossBounds.

Module FocalLossMore.
Import Losses Spec LossSpec FocalLossFacts FocalLossEval FocalLossBounds.
Local Open Scope R_scope.

(** X5. The multiclass case of [FocalLoss.forward]: with two columns of
    logits or more, the probabilities are the sigmoid of each logit on its
    own, not a softmax over the row, the target is the matrix of one-hot
    rows, and the result is the mean over all positions of the
    cross-entropy terms under the modulating weight. *)
Theorem FocalLoss_forward_multiclass
    (alpha gamma : R) (n c : nat) (tshape : list nat)
    (logits : list R) (labels : list Z) :
  (2 <= c)%nat -> labelled_batch n c tshape logits labels ->
  let p := map sigmoid logits in
  let t := flat_map (one_hot c) labels in
  FocalLoss_forward (PyFloat alpha) (PyFloat gamma)
    (mkTensor [n; c] logits) (mkTensor tshape labels)
  = Return (scalar (mean (zip3 bce_term p t
                            (zip_with (modulating_weight alpha gamma) p t)))).
Proof.
  intros Hc Hb p t. rewrite (FocalLoss_forward_eval _ _ _ _ _ _ _ Hb).
  unfold focal_value, class_probs, num_classes.
  destruct (Nat.eqb_spec c 1); [lia | reflexivity].
Qed.

(** The second example of the docstring: three rows, three classes. *)
Lemma FocalLoss_forward_multiclass_witness :
  let logits := [0.2; 0.5; 0.3; 0.8; 0.1; 0.1; 0.7; 0.2; 0.1] in
  let labels := [1; 0; 2]%Z in
  let p := map sigmoid logits in
  let t := [0; 1; 0; 1; 0; 0; 0; 0; 1] in
  labelled_batch 3 3 [3%nat; 1%nat] logits labels
  /\ FocalLoss_forward (PyFloat 0.25) (PyFloat 1)
       (mkTensor [3%nat; 3%nat] logits) (mkTensor [3%nat; 1%nat] labels)
     = Return (scalar (mean (zip3 bce_term p t
                               (zip_with (modulating_weight 0.25 1) p t)))).
Proof.
  intros logits labels p t.
  assert (Hb : labelled_batch 3 3 [3%nat; 1%nat] logits labels).
  { unfold labelled_batch. repeat split; try lia; try reflexivity.
    - now left.
    - unfold num_classes. repeat constructor; simpl; lia. }
  assert (Hc : (2 <= 3)%nat) by lia.
  split; [exact Hb |].
  exact (FocalLoss_forward_multiclass 0.25 1 3 3 [3%nat; 1%nat] logits labels
           Hc Hb).
Defined.

(** X6. The focal loss is never negative, for a class-balancing [alpha]
    between 0 and 1 and a focusing [gamma] that is not negative. *)
Theorem FocalLoss_forward_nonneg
    (alpha gamma : R) (n c : nat) (tshape : list nat)
    (logits : list R) (labels : list Z) :
  0 <= alpha <= 1 -> 0 <= gamma ->
  labelled_batch n c tshape logits labels ->
  exists v,
    FocalLoss_forward (PyFloat alpha) (PyFloat gamma)
      (mkTensor [n; c] logits) (mkTensor tshape labels) = Return (scalar v)
    /\ 0 <= v.
Proof.
  intros Ha Hg Hb. eexists. split.
  - exact (FocalLoss_forward_eval _ _ _ _ _ _ _ Hb).
  - apply focal_value_nonneg; [assumption | apply class_probs_range |].
    apply one_hot_bits.
Qed.

(** X7. With [gamma >= 0] the focal loss is at most the loss with [gamma = 0]:
    the modulating factor only ever scales a term down. *)
Theorem FocalLoss_forward_down_weights
    (alpha gamma : R) (n c : nat) (tshape : list nat)
    (logits : list R) (labels : list Z) :
  0 <= alpha <= 1 -> 0 <= gamma -> labelled_batch n c tshape logits labels ->
  exists v v0,
    FocalLoss_forward (PyFloat alpha) (PyFloat gamma)
      (mkTensor [n; c] logits) (mkTensor tshape labels) = Return (scalar v)
    /\ FocalLoss_forward (PyFloat alpha) (PyFloat 0)
         (mkTensor [n; c] logits) (mkTensor tshape labels) = Return (scalar v0)
    /\ v <= v0.
Proof.
  intros Ha Hg Hb. eexists. eexists. split; [| split].
  - exact (FocalLoss_forward_eval _ _ _ _ _ _ _ Hb).
  - exact (FocalLoss_forward_eval _ _ _ _ _ _ _ Hb).
  - apply focal_value_le_gamma_0; try assumption.
    + apply class_probs_range.
    + apply one_hot_bits.
Qed.

(** X8. The two edge values of the hyperparameters. With [gamma = 0] the
    weight of a position is the class-balancing factor alone, so the loss
    is the [alpha]-weighted cross entropy. With [alpha = 0.5] that factor
    is one half at every position, whatever the target. *)
Theorem FocalLoss_forward_edge_parameters
    (alpha gamma : R) (n c : nat) (tshape : list nat)
    (logits : list R) (labels : list Z) :
  labelled_batch n c tshape logits labels ->
  let p := class_probs c logits in
  let t := flat_map (one_hot (num_classes c)) labels in
  FocalLoss_forward (PyFloat alpha) (PyFloat 0)
    (mkTensor [n; c] logits) (mkTensor tshape labels)
  = Return (scalar (mean (zip3 bce_term p t (zip_with (alpha_term alpha) p t))))
  /\ FocalLoss_forward (PyFloat 0.5) (PyFloat gamma)
       (mkTensor [n; c] logits) (mkTensor tshape labels)
     = Return (scalar (mean (zip3 bce_term p t
                (zip_with (fun p t =>
                             0.5 * pow (1 - (p * t + (1 - p) * (1 - t))) gamma)
                   p t)))).
Proof.
  intros Hb p t. rewrite !(FocalLoss_forward_eval _ _ _ _ _ _ _ Hb).
  unfold focal_value. fold p t.
  assert (H0 : zip_with (modulating_weight alpha 0) p t
               = zip_with (alpha_term alpha) p t).
  { apply zip_with_ext; [| reflexivity..].
    intros x y. apply modulating_weight_gamma_0. }
  assert (Hh : zip_with (modulating_weight 0.5 gamma) p t
               = zip_with (fun p t =>
                             0.5 * pow (1 - (p * t + (1 - p) * (1 - t))) gamma)
                   p t).
  { apply zip_with_ext; [| reflexivity..].
    intros x y. unfold modulating_weight. lra. }
  now rewrite H0, Hh.
Qed.

Lemma binary_batch_example :
  labelled_batch 4 1 [4%nat; 1%nat] [0.6; 0.7; 0.3; 0.8] [0; 1; 0; 1]%Z.
Proof.
  unfold labelled_batch. repeat split; try lia; try reflexivity.
  - now left.
  - unfold num_classes. repeat constructor; simpl; lia.
Defined.

Lemma FocalLoss_forward_nonneg_witness :
  (0 <= 0.25 <= 1 /\ 0 <= 1)
  /\ exists v,
      FocalLoss_forward (PyFloat 0.25) (PyFloat 1)
        (mkTensor [4%nat; 1%nat] [0.6; 0.7; 0.3; 0.8])
        (mkTensor [4%nat; 1%nat] [0; 1; 0; 1]%Z) = Return (scalar v)
      /\ 0 <= v.
Proof.
  assert (Ha : 0 <= 0.25 <= 1) by lra.
  assert (Hg : 0 <= 1) by lra.
  split; [split; assumption |].
  exact (FocalLoss_forward_nonneg 0.25 1 4 1 [4%nat; 1%nat] _ _ Ha Hg
           binary_batch_example).
Defined.

Lemma FocalLoss_forward_down_weights_witness :
  (0 <= 0.25 <= 1 /\ 0 <= 2)
  /\ exists v v0,
      FocalLoss_forward (PyFloat 0.25) (PyFloat 2)
        (mkTensor [4%nat; 1%nat] [0.6; 0.7; 0.3; 0.8])
        (mkTensor [4%nat; 1%nat] [0; 1; 0; 1]%Z) = Return (scalar v)
      /\ FocalLoss_forward (PyFloat 0.25) (PyFloat 0)
           (mkTensor [4%nat; 1%nat] [0.6; 0.7; 0.3; 0.8])
           (mkTensor [4%nat; 1%nat] [0; 1; 0; 1]%Z) = Return (scalar v0)
      /\ v <= v0.
Proof.
  assert (Ha : 0 <= 0.25 <= 1) by lra.
  assert (Hg : 0 <= 2) by lra.
  split; [split; assumption |].
  exact (FocalLoss_forward_down_weights 0.25 2 4 1 [4%nat; 1%nat] _ _ Ha Hg
           binary_batch_example).
Defined.

Lemma FocalLoss_forward_edge_parameters_witness :
  labelled_batch 4 1 [4%nat; 1%nat] [0.6; 0.7; 0.3; 0.8] [0; 1; 0; 1]%Z
  /\ FocalLoss_forward (PyFloat 0.25) (PyFloat 0)
       (mkTensor [4%nat; 1%nat] [0.6; 0.7; 0.3; 0.8])
       (mkTensor [4%nat; 1%nat] [0; 1; 0; 1]%Z)
     = Return (scalar (mean (zip3 bce_term
                  (class_probs 1 [0.6; 0.7; 0.3; 0.8])
                  (flat_map (one_hot 2) [0; 1; 0; 1]%Z)
                  (zip_with (alpha_term 0.25)
                     (class_probs 1 [0.6; 0.7; 0.3; 0.8])
                     (flat_map (one_hot 2) [0; 1; 0; 1]%Z))))).
Proof.
  split; [exact binary_batch_example |].
  apply (FocalLoss_forward_edge_parameters 0.25 1 4 1 [4%nat; 1%nat] _ _
           binary_batch_example).
Defined.

End FocalLossMore.

Module BroadcastFacts.

Lemma concat_blocks {A} (n k : nat) (l : list A) :
  length l = (n * k)%nat -> concat (blocks n k l) = l.
Proof.
  revert l. induction n as [| n IH]; intros l Hl; simpl.
  - destruct l; [reflexivity | discriminate Hl].
  - rewrite IH by (rewrite length_skipn; lia). apply firstn_skipn.
Qed.

Lemma blocks_lengths {A} (n k : nat) (l : list A) :
  length l = (n * k)%nat -> Forall (fun b => length b = k) (blocks n k l).
Proof.
  revert l. induction n as [| n IH]; intros l Hl; simpl; constructor.
  - rewrite length_firstn. lia.
  - apply IH. rewrite length_skipn. lia.
Qed.

Lemma mapM_option_same {A} (f : A -> option A) (l : list A) :
  Forall (fun x => f x = Some x) l -> mapM f l = Some l.
Proof.
  induction 1 as [| x l Hx _ IH]; [reflexivity |].
  cbn [mapM]. rewrite Hx. cbn. rewrite IH. reflexivity.
Qed.

(** Stretching a tensor to the shape it has leaves its elements alone. *)
Lemma expand_data_same {A} (s : list nat) (d : list A) :
  length d = numel_of s -> expand_data s s d = Some d.
Proof.
  revert d. induction s as [| sd s IH]; intros d Hd; [reflexivity |].
  cbn [expand_data]. cbn [numel_of fold_right] in Hd.
  fold (numel_of s) in Hd.
  rewrite (mapM_option_same _ (blocks sd (numel_of s) d)).
  - rewrite Nat.eqb_refl. f_equal. now apply concat_blocks.
  - eapply Forall_impl; [apply blocks_lengths; exact Hd |].
    intros b Hb. now apply IH.
Qed.

(** A row matrix and a vector of the same length combine to a row matrix,
    in either order. *)
Lemma binop_row_vector {A B C} (f : A -> B -> C) (c : nat)
    (a : list A) (b : list B) :
  length b = c ->
  binop f (mkTensor [1%nat; c] a) (mkTensor [c] b)
  = Return (mkTensor [1%nat; c] (zip_with f a b)).
Proof.
  intros Hb. unfold binop. cbn [shape data].
  rewrite bool_decide_eq_false_2 by discriminate.
  unfold broadcast_shapes. cbn [rev app broadcast_rev].
  rewrite Nat.eqb_refl. cbn [option_map rev app].
  unfold expand. cbn [shape data].
  rewrite (bool_decide_eq_true_2 ([1%nat; c] = [1%nat; c])) by reflexivity.
  cbn [mbind outcome_bind].
  rewrite (bool_decide_eq_false_2 ([c] = [1%nat; c])) by discriminate.
  cbn [length Nat.ltb Nat.leb Nat.sub repeat app].
  rewrite (expand_data_same [1%nat; c] b) by (cbn [numel_of fold_right]; lia).
  reflexivity.
Qed.

Lemma binop_vector_row {A B C} (f : A -> B -> C) (c : nat)
    (a : list A) (b : list B) :
  length a = c ->
  binop f (mkTensor [c] a) (mkTensor [1%nat; c] b)
  = Return (mkTensor [1%nat; c] (zip_with f a b)).
Proof.
  intros Ha. unfold binop. cbn [shape data].
  rewrite bool_decide_eq_false_2 by discriminate.
  unfold broadcast_shapes. cbn [rev app broadcast_rev].
  rewrite Nat.eqb_refl. cbn [option_map rev app].
  unfold expand. cbn [shape data].
  rewrite (bool_decide_eq_false_2 ([c] = [1%nat; c])) by discriminate.
  cbn [length Nat.ltb Nat.leb Nat.sub repeat app].
  rewrite (expand_data_same [1%nat; c] a) by (cbn [numel_of fold_right]; lia).
  cbn [mbind outcome_bind].
  rewrite (bool_decide_eq_true_2 ([1%nat; c] = [1%nat; c])) by reflexivity.
  reflexivity.
Qed.

Lemma binop_same_shape {A B C} (f : A -> B -> C) (s : list nat)
    (a : list A) (b : list B) :
  binop f (mkTensor s a) (mkTensor s b) = Return (mkTensor s (zip_with f a b)).
Proof.
  unfold binop. cbn [shape data].
  now rewrite bool_decide_eq_true_2 by reflexivity.
Qed.

Lemma mapM_outcome_raise {A B} (f : A -> outcome B) (e : exn) (l : list A) :
  (forall x, f x = Raise e \/ exists y, f x = Return y) ->
  Exists (fun x => f x = Raise e) l -> mapM f l = Raise e.
Proof.
  intros Hf. induction 1 as [x l Hx | x l _ IH]; cbn [mapM].
  - now rewrite Hx.
  - destruct (Hf x) as [-> | [y ->]]; [reflexivity |].
    cbn. now rewrite IH.
Qed.

End BroadcastFacts.

Module FocalLossEdges.
Import Losses Spec LossSpec FocalLossFacts FocalLossEval BroadcastFacts.
Local Open Scope R_scope.

Lemma index_rows_bad_index {A} (r c : nat) (d : list A) (idx : Tensor Z) :
  Exists (fun l => ~ (- Z.of_nat r <= l < Z.of_nat r)%Z) (data idx) ->
  index_rows (mkTensor [r; c] d) idx = Raise IndexError.
Proof.
  intros Hbad. unfold index_rows. cbn [shape].
  rewrite (mapM_outcome_raise _ IndexError); [reflexivity | |].
  - intros l. cbn beta. repeat case_bool_decide; eauto.
  - eapply Exists_impl; [exact Hbad |].
    intros l Hl. cbn beta in Hl |- *.
    rewrite !bool_decide_eq_false_2 by lia. reflexivity.
Qed.

(** X9. A label that is not a class index, counted from the front or from the
    back, makes [forward] raise [IndexError], whatever else it is given. *)
Theorem FocalLoss_forward_label_out_of_range
    (alpha gamma : pyval) (n c : nat) (tshape : list nat)
    (logits : list R) (labels : list Z) (l : Z) :
  (1 <= c)%nat -> In l labels ->
  ~ (- Z.of_nat (num_classes c) <= l < Z.of_nat (num_classes c))%Z ->
  FocalLoss_forward alpha gamma (mkTensor [n; c] logits) (mkTensor tshape labels)
  = Raise IndexError.
Proof.
  intros Hc Hin Hl.
  assert (Hidx : forall d : list R,
             index_rows (mkTensor [num_classes c; num_classes c] d)
               (long (squeeze (mkTensor tshape labels))) = Raise IndexError).
  { intros d. apply index_rows_bad_index. cbn [long squeeze data].
    apply Exists_exists. exists l. split; [| exact Hl].
    now apply list_elem_of_In. }
  unfold FocalLoss_forward, num_classes in *.
  cbn [size shape nth_error mbind outcome_bind].
  destruct (Nat.eqb_spec c 1) as [-> | Hc1].
  - unfold cat1, tmap. cbn [shape data].
    rewrite !bool_decide_eq_false_2 by discriminate.
    rewrite bool_decide_eq_true_2 by (split; reflexivity).
    cbn [mbind outcome_bind mret outcome_ret fst snd].
    unfold eye at 1. now rewrite Hidx.
  - unfold tmap. cbn [size shape nth_error mbind outcome_bind fst snd].
    unfold eye at 1. now rewrite Hidx.
Qed.

Lemma FocalLoss_forward_label_out_of_range_witness :
  ((1 <= 1)%nat /\ In 2%Z [0; 2]%Z /\ ~ (- 2 <= 2 < 2)%Z)
  /\ FocalLoss_forward (PyFloat 0.25) (PyFloat 1)
       (mkTensor [2%nat; 1%nat] [0.6; 0.7]) (mkTensor [2%nat; 1%nat] [0; 2]%Z)
     = Raise IndexError.
Proof.
  assert (Hc : (1 <= 1)%nat) by lia.
  assert (Hin : In 2%Z [0; 2]%Z) by (simpl; tauto).
  assert (Hl : ~ (- Z.of_nat (num_classes 1) <= 2 < Z.of_nat (num_classes 1))%Z)
    by (cbn; lia).
  split; [split; [exact Hc | split; [exact Hin | lia]] |].
  exact (FocalLoss_forward_label_out_of_range (PyFloat 0.25) (PyFloat 1) 2 1
           [2%nat; 1%nat] [0.6; 0.7] [0; 2]%Z 2%Z Hc Hin Hl).
Defined.

(** A parameter may be a tensor: a per-class [alpha] is stretched over
    the rows, and a parameter that is [None] is a [TypeError]. *)
Example _get_weight_tensor_alpha (a0 a1 g p0 p1 t0 t1 : R) :
  let p := mkTensor [1%nat; 2%nat] [p0; p1] in
  let t := mkTensor [1%nat; 2%nat] [t0; t1] in
  _get_weight (PyTensor (mkTensor [2%nat] [a0; a1])) (PyFloat g) p t
  = Return (mkTensor [1%nat; 2%nat]
              [ (a0 * t0 + (1 - a0) * (1 - t0))
                * pow (1 - (p0 * t0 + (1 - p0) * (1 - t0))) g;
                (a1 * t1 + (1 - a1) * (1 - t1))
                * pow (1 - (p1 * t1 + (1 - p1) * (1 - t1))) g ])
  /\ _get_weight PyNone (PyFloat g) p t = Raise TypeError
  /\ _get_weight (PyFloat a0) PyNone p t = Raise TypeError.
Proof. repeat split. Qed.

Lemma _get_weight_row_vector (a g : R) (c : nat) (p t : list R) :
  length p = c -> length t = c ->
  exists w, _get_weight (PyFloat a) (PyFloat g)
              (mkTensor [1%nat; c] p) (mkTensor [c] t)
            = Return (mkTensor [1%nat; c] w).
Proof.
  intros Hp Ht. eexists. unfold _get_weight, detach, tmap. cbn [shape data].
  rewrite binop_row_vector by (rewrite ?length_map; assumption).
  cbn [mbind outcome_bind].
  rewrite binop_row_vector by (rewrite ?length_map; assumption).
  cbn [mbind outcome_bind].
  rewrite binop_same_shape. cbn [mbind outcome_bind times one_minus power].
  unfold tmap. cbn [shape data].
  rewrite binop_same_shape. cbn [mbind outcome_bind shape data].
  rewrite binop_vector_row
    by (rewrite length_zip_with, !length_map; lia).
  cbn [mbind outcome_bind]. reflexivity.
Qed.

(** X10. A batch of one single row makes [forward] raise [ValueError], in the
    binary and in the multiclass case: [squeeze] drops the batch axis of
    the target along with the column axis, the one-hot target comes out
    as a vector, and the substrate's cross entropy refuses a target whose
    shape is not the input's. *)
Theorem FocalLoss_forward_one_row
    (alpha gamma : R) (c : nat) (tshape : list nat) (logits : list R) (l : Z) :
  (1 <= c)%nat -> length logits = c ->
  tshape = [1%nat; 1%nat] \/ tshape = [1%nat] ->
  (0 <= l < Z.of_nat (num_classes c))%Z ->
  FocalLoss_forward (PyFloat alpha) (PyFloat gamma)
    (mkTensor [1%nat; c] logits) (mkTensor tshape [l])
  = Raise ValueError.
Proof.
  intros Hc Hx Hs Hl.
  assert (Hsq : squeeze (mkTensor tshape [l]) = mkTensor [] [l])
    by (destruct Hs as [-> | ->]; reflexivity).
  assert (Hrows : index_rows (eye (num_classes c)) (mkTensor [] [l])
                  = Return (mkTensor [num_classes c]
                              (one_hot (num_classes c) l ++ [])))
    by (rewrite index_rows_eye by (constructor; [exact Hl | constructor]);
        reflexivity).
  assert (Hlen : length (one_hot (num_classes c) l ++ []) = num_classes c)
    by (unfold one_hot; now rewrite length_app, length_map, length_seq,
          Nat.add_0_r).
  assert (Hend : forall p,
             length p = num_classes c ->
             (weight ← _get_weight (PyFloat alpha) (PyFloat gamma)
                         (mkTensor [1%nat; num_classes c] p)
                         (mkTensor [num_classes c]
                            (one_hot (num_classes c) l ++ []));
              binary_cross_entropy (mkTensor [1%nat; num_classes c] p)
                (mkTensor [num_classes c] (one_hot (num_classes c) l ++ []))
                weight) = Raise ValueError).
  { intros p Hp.
    destruct (_get_weight_row_vector alpha gamma _ p _ Hp Hlen) as [w ->].
    cbn [mbind outcome_bind]. unfold binary_cross_entropy. cbn [shape].
    now rewrite bool_decide_eq_false_2 by discriminate. }
  unfold FocalLoss_forward, long, contiguous, num_classes in *.
  cbn [size shape nth_error mbind outcome_bind].
  destruct (Nat.eqb_spec c 1) as [-> | Hc1].
  - unfold tmap. cbn [shape data].
    rewrite cat1_columns by (now rewrite ?length_map).
    cbn [mbind outcome_bind mret outcome_ret fst snd].
    rewrite Hsq, Hrows. cbn [mbind outcome_bind].
    apply Hend. rewrite two_class_probs_columns.
    destruct logits as [| x [| y rest]]; try discriminate Hx. reflexivity.
  - unfold tmap. cbn [size shape nth_error mbind outcome_bind fst snd data].
    rewrite Hsq, Hrows. cbn [mbind outcome_bind].
    apply Hend. now rewrite length_map.
Qed.

Lemma FocalLoss_forward_one_row_witness :
  ((1 <= 3)%nat /\ (0 <= 2 < 3)%Z)
  /\ FocalLoss_forward (PyFloat 0.25) (PyFloat 1)
       (mkTensor [1%nat; 3%nat] [0.2; 0.5; 0.3]) (mkTensor [1%nat; 1%nat] [2%Z])
     = Raise ValueError.
Proof.
  assert (Hc : (1 <= 3)%nat) by lia.
  assert (Hl : (0 <= 2 < Z.of_nat (num_classes 3))%Z) by (cbn; lia).
  split; [split; [exact Hc | lia] |].
  exact (FocalLoss_forward_one_row 0.25 1 3 [1%nat; 1%nat] [0.2; 0.5; 0.3] 2%Z
           Hc eq_refl (or_introl eq_refl) Hl).
Defined.

End FocalLossEdges.

(* ================================================================== *)
(** * More on the regression losses                                     *)
(* ================================================================== *)

Module RegressionLossMore.
Import Losses Spec RegressionLossFacts FocalLossFacts.
Local Open Scope R_scope.

Lemma broadcast_rev_comm (r1 r2 : list nat) :
  broadcast_rev r1 r2 = broadcast_rev r2 r1.
Proof.
  revert r2. induction r1 as [| a r1 IH]; intros [| b r2]; try reflexivity.
  cbn [broadcast_rev]. rewrite (IH r2).
  destruct (broadcast_rev r2 r1) as [r |]; [| reflexivity].
  destruct (Nat.eqb_spec a b) as [-> | Hab].
  - now rewrite Nat.eqb_refl.
  - destruct (Nat.eqb_spec b a) as [-> | _]; [contradiction |].
    destruct (Nat.eqb_spec a 1) as [-> | Ha];
      destruct (Nat.eqb_spec b 1) as [-> | Hb];
      first [reflexivity | contradiction].
Qed.

Lemma broadcast_shapes_comm (s1 s2 : list nat) :
  broadcast_shapes s1 s2 = broadcast_shapes s2 s1.
Proof. unfold broadcast_shapes. now rewrite broadcast_rev_comm. Qed.

Lemma expand_raises {A} (t : Tensor A) (s : list nat) (e : exn) :
  expand t s = Raise e -> e = RuntimeError.
Proof.
  unfold expand. case_bool_decide; [discriminate |].
  destruct (Nat.ltb _ _); [now intros [= <-] |].
  destruct (expand_data _ _ _); [discriminate | now intros [= <-]].
Qed.

Lemma zip_with_swap {A B C} (f : A -> B -> C) (a : list A) (b : list B) :
  zip_with (fun y x => f x y) b a = zip_with f a b.
Proof.
  revert b. induction a as [| x a IH]; intros [| y b]; simpl;
    try reflexivity.
  now rewrite IH.
Qed.

(** An elementwise operation may be taken with its arguments swapped. *)
Lemma binop_swap {A B C} (f : A -> B -> C) (a : Tensor A) (b : Tensor B) :
  binop (fun y x => f x y) b a = binop f a b.
Proof.
  unfold binop.
  destruct (decide (shape a = shape b)) as [Heq | Hne].
  - rewrite !bool_decide_eq_true_2 by congruence.
    now rewrite zip_with_swap, Heq.
  - rewrite !bool_decide_eq_false_2 by congruence.
    rewrite (broadcast_shapes_comm (shape b)).
    destruct (broadcast_shapes (shape a) (shape b)) as [s |]; [| reflexivity].
    destruct (expand a s) as [a' | ea] eqn:Ha;
      destruct (expand b s) as [b' | eb] eqn:Hb; cbn [mbind outcome_bind];
      try reflexivity.
    + now rewrite zip_with_swap.
    + apply expand_raises in Ha, Hb. now subst.
Qed.

Lemma squares_of_differences (a b : Tensor R) :
  (d ← binop (fun x y => y - x) a b; Return (map (fun x => x * x) (data d)))
  = (d ← binop Rminus a b; Return (map (fun x => x * x) (data d))).
Proof.
  assert (Hz : forall xs ys : list R,
             map (fun x => x * x) (zip_with (fun x y => y - x) xs ys)
             = map (fun x => x * x) (zip_with Rminus xs ys)).
  { induction xs as [| x xs IH]; intros [| y ys]; simpl; try reflexivity.
    rewrite IH. f_equal. lra. }
  unfold binop. case_bool_decide.
  - cbn [mbind outcome_bind data]. now rewrite Hz.
  - destruct (broadcast_shapes (shape a) (shape b)) as [s |]; [| reflexivity].
    destruct (expand a s) as [a' |]; cbn [mbind outcome_bind];
      [| reflexivity].
    destruct (expand b s) as [b' |]; cbn [mbind outcome_bind data];
      [| reflexivity].
    now rewrite Hz.
Qed.

Lemma mse_via_squares (p t : Tensor R) :
  mse p t = (sq ← (d ← binop Rminus p t;
                   Return (map (fun x => x * x) (data d)));
             Return (scalar (mean sq))).
Proof. unfold mse. now destruct (binop Rminus p t). Qed.

Lemma mse_comm (p t : Tensor R) : mse p t = mse t p.
Proof.
  rewrite !mse_via_squares.
  rewrite <- (squares_of_differences t p).
  now rewrite <- (binop_swap (fun x y => y - x) t p).
Qed.

(** X11. Each of the regression losses gives the same value with prediction
    and target exchanged, and raises alike. *)
Theorem regression_losses_symmetric (p t : Tensor R) :
  mse p t = mse t p
  /\ RMSELoss_forward p t = RMSELoss_forward t p
  /\ MSLELoss_forward p t = MSLELoss_forward t p
  /\ RMSLELoss_forward p t = RMSLELoss_forward t p.
Proof.
  unfold RMSELoss_forward, MSLELoss_forward, RMSLELoss_forward.
  repeat split; try apply mse_comm; now rewrite mse_comm.
Qed.

Lemma sum_zero_squares (l : list R) :
  sum (map (fun x => x * x) (zip_with Rminus l l)) = 0.
Proof.
  induction l as [| x l IH]; simpl; [reflexivity |].
  rewrite IH. lra.
Qed.

Lemma mse_same (p : Tensor R) : mse p p = Return (scalar 0).
Proof.
  rewrite mse_same_shape by reflexivity. unfold mean_sq_diff, mean.
  do 2 f_equal.
  assert (Hs : sum (zip_with (fun x y => (x - y) * (x - y)) (data p) (data p)) = 0).
  { induction (data p) as [| x l IH]; simpl; [reflexivity |].
    rewrite IH. lra. }
  rewrite Hs. unfold Rdiv. apply Rmult_0_l.
Qed.

(** X12. A prediction that equals its target has loss zero: the mean squared
    error and its root for a tensor with an element, the two logarithmic
    losses if moreover every element is above [-1]. *)
Theorem regression_losses_vanish (p : Tensor R) :
  data p <> [] ->
  mse p p = Return (scalar 0)
  /\ RMSELoss_forward p p = Return (scalar 0)
  /\ (Forall (fun x => -1 < x) (data p) ->
      MSLELoss_forward p p = Return (scalar 0)
      /\ RMSLELoss_forward p p = Return (scalar 0)).
Proof.
  intros _.
  assert (Hroot : tmap sqrt (scalar 0) = scalar 0)
    by (unfold tmap, scalar; simpl; now rewrite sqrt_0).
  split; [apply mse_same | split].
  - unfold RMSELoss_forward. rewrite mse_same. cbn. now rewrite Hroot.
  - intros _. unfold MSLELoss_forward, RMSLELoss_forward.
    rewrite mse_same. cbn. now rewrite Hroot.
Qed.

Lemma regression_losses_vanish_witness :
  let p := mkTensor [2%nat] [0; 3] in
  data p <> []
  /\ RMSELoss_forward p p = Return (scalar 0)
  /\ RMSLELoss_forward p p = Return (scalar 0).
Proof.
  intros p.
  assert (Hne : data p <> []) by discriminate.
  assert (Hdom : Forall (fun x => -1 < x) (data p))
    by (repeat constructor; lra).
  destruct (regression_losses_vanish p Hne) as (_ & Hrmse & Hlog).
  split; [exact Hne | split; [exact Hrmse |]].
  now apply Hlog.
Defined.

(** X13. Shapes that do not broadcast make each of the four losses raise
    [RuntimeError]. *)
Theorem regression_losses_shape_mismatch (p t : Tensor R) :
  broadcast_shapes (shape p) (shape t) = None ->
  mse p t = Raise RuntimeError
  /\ RMSELoss_forward p t = Raise RuntimeError
  /\ MSLELoss_forward p t = Raise RuntimeError
  /\ RMSLELoss_forward p t = Raise RuntimeError.
Proof.
  intros Hb.
  assert (Hm : forall p' t' : Tensor R,
             shape p' = shape p -> shape t' = shape t ->
             mse p' t' = Raise RuntimeError).
  { intros p' t' Hp Ht. unfold mse, binop. rewrite Hp, Ht.
    rewrite bool_decide_eq_false_2.
    - now rewrite Hb.
    - intros Heq. rewrite Heq, broadcast_shapes_same in Hb. discriminate Hb. }
  unfold RMSELoss_forward, MSLELoss_forward, RMSLELoss_forward.
  rewrite (Hm p t), (Hm (tmap log _) (tmap log _)) by reflexivity.
  repeat split.
Qed.

Lemma regression_losses_shape_mismatch_witness :
  let p := mkTensor [2%nat] [1; 2] in
  let t := mkTensor [3%nat] [1; 2; 3] in
  broadcast_shapes (shape p) (shape t) = None
  /\ RMSELoss_forward p t = Raise RuntimeError.
Proof.
  intros p t.
  assert (Hb : broadcast_shapes (shape p) (shape t) = None) by reflexivity.
  split; [exact Hb |].
  apply (regression_losses_shape_mismatch p t Hb).
Defined.

End RegressionLossMore.

(* ================================================================== *)
(** * More on the model composer                                        *)
(* ================================================================== *)

Module ComposerMore.
Import WideDeepModel ComposerSpec ComposerSpecMore ComposerFacts.

Section More.
Context {T : Type}.
Variable zero : T.
Variables add mul : T -> T -> T.
Context {Generator : Type}.
Variable sample : nat -> Generator -> T * Generator.
Variable MLP : list Z -> HeadOptions -> M (Generator := Generator) (Module (T := T)).
Variable add_module : Module (T := T) -> string -> Module (T := T) -> Module (T := T).

Abbreviation init := (init zero add mul sample MLP add_module).
Abbreviation forward := (forward zero add mul sample).
Implicit Types wide tab txt img head : option (Module (T := T)).

Lemma lacks_output_dim_false tab :
  lacks_output_dim tab = false
  <-> (forall b, tab = Some b -> is_Some (output_dim b)).
Proof.
  unfold lacks_output_dim. destruct tab as [b |].
  - case_bool_decide; cbn [negb]; split; try discriminate; try reflexivity.
    + now intros _ b' [= <-].
    + intros Hb. exfalso. eauto.
  - split; [discriminate | reflexivity].
Qed.

(** X14. The check passes on exactly the well-configured arguments. *)
Theorem check_passes_iff wide tab txt img head hld pd :
  _check_model_components wide tab txt img head hld pd = Return tt
  <-> well_configured wide tab txt img head hld pd.
Proof.
  split.
  - intros Hc. apply check_returns_inv in Hc.
    destruct Hc as (Hw & Htab & Htxt & Himg & Hboth & Hnone & Hhead).
    pose proof (proj1 (lacks_output_dim_false tab) Htab) as Ht1.
    pose proof (proj1 (lacks_output_dim_false txt) Htxt) as Ht2.
    pose proof (proj1 (lacks_output_dim_false img) Himg) as Ht3.
    repeat split; try assumption.
    + intros b [-> | [-> | ->]]; eauto.
    + destruct head, hld; try discriminate Hboth; auto.
    + intros Hhld. destruct hld; [| contradiction].
      destruct (truthy tab), (truthy txt), (truthy img);
        try discriminate Hnone; auto.
  - intros (Hw & Hdim & Hboth & Hnone & Hhead).
    unfold _check_model_components.
    assert (Hwide : match wide with
                    | Some w => n ← wide_width w; assert (bool_decide (n = pd))
                    | None => Return tt
                    end = Return tt).
    { destruct wide as [w |]; [| reflexivity].
      rewrite (Hw w eq_refl). cbn. unfold assert.
      now rewrite bool_decide_eq_true_2. }
    rewrite Hwide. cbn [mbind outcome_bind].
    rewrite (proj2 (lacks_output_dim_false tab)) by (intros b ->; eauto).
    rewrite (proj2 (lacks_output_dim_false txt)) by (intros b ->; eauto).
    rewrite (proj2 (lacks_output_dim_false img)) by (intros b ->; eauto).
    assert (Hb : is_not_None head && is_not_None hld = false)
      by (destruct Hboth as [-> | ->]; [reflexivity | now destruct head]).
    rewrite Hb.
    assert (Hn : is_not_None hld && negb (truthy tab) && negb (truthy txt)
                 && negb (truthy img) = false).
    { destruct hld as [dims |]; [| reflexivity].
      destruct Hnone as [-> | [-> | ->]]; try discriminate; cbn;
        now rewrite ?andb_false_r. }
    rewrite Hn.
    destruct head as [h |]; [| reflexivity].
    destruct (Hhead h eq_refl) as (n & -> & Hd). cbn [mbind outcome_bind].
    unfold deep_output_dim in Hd.
    destruct (add_output_dim 0 tab) as [d1 |]; cbn in Hd |- *; [| discriminate].
    destruct (add_output_dim d1 txt) as [d2 |]; cbn in Hd |- *; [| discriminate].
    rewrite Hd. cbn. unfold assert. now rewrite bool_decide_eq_true_2.
Qed.

(** ** What a call reads of the batch *)

Lemma run_agree (m : Module (T := T)) (X X' : dict (Tensor T)) key :
  get X key = get X' key -> run m X key = run m X' key.
Proof. intros H. unfold run, getitem. now rewrite H. Qed.

Lemma add_branch_agree out (m : option (Module (T := T))) X X' key :
  (m <> None -> get X key = get X' key) ->
  add_branch add out m X key = add_branch add out m X' key.
Proof.
  destruct m as [b |]; [| reflexivity]. intros H. unfold add_branch.
  now rewrite (run_agree b X X') by (apply H; discriminate).
Qed.

Lemma cat_branch_agree side (m : option (Module (T := T))) X X' key :
  (m <> None -> get X key = get X' key) ->
  cat_branch side m X key = cat_branch side m X' key.
Proof.
  destruct m as [b |]; [| reflexivity]. intros H. unfold cat_branch.
  now rewrite (run_agree b X X') by (apply H; discriminate).
Qed.

Lemma wide_out_agree (self : WideDeep (T := T)) X X' :
  (wide self = None -> first_entry X = first_entry X') ->
  (wide self <> None -> get X "wide" = get X' "wide") ->
  wide_out zero self X = wide_out zero self X'.
Proof.
  intros Hf Hw. unfold wide_out. destruct (wide self) as [w |].
  - apply run_agree, Hw. discriminate.
  - specialize (Hf eq_refl).
    destruct X as [| [k x] rest], X' as [| [k' x'] rest'];
      try discriminate Hf; [reflexivity |].
    injection Hf as -> ->. cbn [keys map fst]. now rewrite !getitem_first.
Qed.

Lemma forward_direct_agree (self : WideDeep (T := T)) X X' out (g : Generator) :
  (forall key, present self key -> get X key = get X' key) ->
  forward_direct add self X out g = forward_direct add self X' out g.
Proof.
  intros H. unfold forward_direct, mbind, M_bind, lift.
  rewrite (add_branch_agree out _ X X')
    by (intros Hn; apply H; right; left; now split).
  destruct (add_branch add out (deeptabular self) X' "deeptabular") as [o1 |];
    [| reflexivity].
  rewrite (add_branch_agree o1 _ X X')
    by (intros Hn; apply H; right; right; left; now split).
  destruct (add_branch add o1 (deeptext self) X' "deeptext") as [o2 |];
    [| reflexivity].
  now rewrite (add_branch_agree o2 _ X X')
    by (intros Hn; apply H; right; right; right; now split).
Qed.

Lemma deepside_of_agree (self : WideDeep (T := T)) X X' :
  (forall key, present self key -> get X key = get X' key) ->
  deepside_of self X = deepside_of self X'.
Proof.
  intros H. unfold deepside_of.
  assert (Ht : match deeptabular self with
               | Some m => run m X "deeptabular"
               | None => Return empty1
               end
               = match deeptabular self with
                 | Some m => run m X' "deeptabular"
                 | None => Return empty1
                 end).
  { destruct (deeptabular self) as [b |] eqn:Hb; [| reflexivity].
    apply run_agree, H. right; left. split; [reflexivity | congruence]. }
  rewrite Ht. clear Ht.
  destruct (match deeptabular self with Some _ => _ | None => _ end)
    as [d1 |]; cbn [mbind outcome_bind]; [| reflexivity].
  rewrite (cat_branch_agree d1 _ X X')
    by (intros Hn; apply H; right; right; left; now split).
  destruct (cat_branch d1 (deeptext self) X' "deeptext") as [d2 |];
    cbn [mbind outcome_bind]; [| reflexivity].
  apply cat_branch_agree. intros Hn. apply H. right; right; right. now split.
Qed.

(** X15. A call reads the entries of the batch that belong to the components
    of the model, and, when there is no wide component, its first entry,
    whatever its key: two batches that agree on these are answered
    alike. An entry under the key of a component the model does not have
    is never looked at. *)
Theorem forward_reads_present_keys (self : WideDeep (T := T)) X X' g :
  (wide self = None -> first_entry X = first_entry X') ->
  (forall key, present self key -> get X key = get X' key) ->
  forward self X g = forward self X' g.
Proof.
  intros Hf H. unfold WideDeepModel.forward.
  rewrite (wide_out_agree self X X' Hf)
    by (intros Hn; apply H; left; now split).
  unfold mbind, M_bind, lift.
  destruct (wide_out zero self X') as [out |]; [| reflexivity].
  assert (Hd := forward_direct_agree self X X' out g H).
  destruct (deephead self) as [h |]; [| exact Hd].
  destruct (truth h); [| exact Hd].
  unfold forward_head. now rewrite (deepside_of_agree self X X' H).
Qed.

(** ** The shape of the answer *)

Lemma binop__shape {B} (f : T -> B -> T) out y r :
  binop_ f out y = Return r -> shape r = shape out.
Proof.
  unfold binop_. case_bool_decide.
  - now intros [= <-].
  - destruct (expand y (shape out)); cbn; [now intros [= <-] | discriminate].
Qed.

Lemma add_branch_shape out (m : option (Module (T := T))) X key r :
  add_branch add out m X key = Return r -> shape r = shape out.
Proof.
  destruct m as [b |]; unfold add_branch.
  - destruct (run b X key); cbn; [apply binop__shape | discriminate].
  - now intros [= <-].
Qed.

Lemma forward_direct_shape (self : WideDeep (T := T)) X out (g : Generator) y g' :
  forward_direct add self X out g = (Return y, g') -> shape y = shape out.
Proof.
  unfold forward_direct, mbind, M_bind, lift, mret, M_ret.
  destruct (add_branch add out (deeptabular self) X "deeptabular")
    as [o1 |] eqn:H1; [| discriminate].
  destruct (add_branch add o1 (deeptext self) X "deeptext")
    as [o2 |] eqn:H2; [| discriminate].
  destruct (add_branch add o2 (deepimage self) X "deepimage")
    as [o3 |] eqn:H3; [| discriminate].
  intros [= <- _].
  apply add_branch_shape in H1, H2, H3. congruence.
Qed.

Lemma forward_head_shape (self : WideDeep (T := T)) (h : Module) X out g y g' :
  forward_head zero add mul sample self h X out g = (Return y, g') ->
  shape y = shape out.
Proof.
  unfold forward_head, mbind, M_bind, lift.
  destruct (deepside_of self X) as [ds |]; [| discriminate].
  destruct (call h ds) as [ho |]; [| discriminate].
  destruct (size ho 1) as [n |]; [| discriminate].
  destruct (Linear zero add mul sample (Z.of_nat n) (pred_dim self) g)
    as [[lin |] g1]; [| discriminate].
  destruct (call lin ho) as [z |]; [| discriminate].
  destruct (binop_ add out z) as [r |] eqn:Hr; [| discriminate].
  intros [= <- _]. now apply binop__shape in Hr.
Qed.

Lemma zeros_returns_inv n pd (t : Tensor T) :
  zeros zero n pd = Return t ->
  (0 <= pd)%Z /\ t = full zero [n; Z.to_nat pd].
Proof.
  unfold zeros. case_bool_decide; [discriminate |].
  intros [= <-]. split; [lia | reflexivity].
Qed.

(** X16. The deep components are added in place to the wide output, so a call
    that returns, returns a tensor of the shape of the wide output. With
    no wide component this is one row per row of the first entry of the
    batch and [pred_dim] columns, whatever the deep components and the
    head return. *)
Theorem forward_output_shape (self : WideDeep (T := T)) X g y g' :
  forward self X g = (Return y, g') ->
  (exists out, wide_out zero self X = Return out /\ shape y = shape out)
  /\ (wide self = None ->
      exists k x rest n s,
        X = (k, x) :: rest /\ shape x = n :: s
        /\ (0 <= pred_dim self)%Z
        /\ shape y = [n; Z.to_nat (pred_dim self)]).
Proof.
  intros Hf.
  assert (Hout : exists out, wide_out zero self X = Return out
                             /\ shape y = shape out).
  { unfold WideDeepModel.forward, mbind at 1, M_bind, lift in Hf.
    destruct (wide_out zero self X) as [out |]; [| discriminate].
    exists out. split; [reflexivity |].
    destruct (deephead self) as [h |];
      [destruct (truth h) |];
      first [ now apply forward_head_shape in Hf
            | now apply forward_direct_shape in Hf ]. }
  split; [exact Hout |].
  intros Hw. destruct Hout as (out & Hout & Hshape).
  unfold wide_out in Hout. rewrite Hw in Hout.
  destruct X as [| [k x] rest]; [discriminate |].
  cbn [keys map fst] in Hout. rewrite getitem_first in Hout.
  cbn [mbind outcome_bind] in Hout. unfold size in Hout.
  destruct (shape x) as [| n s] eqn:Hx; [discriminate |].
  cbn [nth_error mbind outcome_bind] in Hout.
  apply zeros_returns_inv in Hout. destruct Hout as [Hpd ->].
  exists k, x, rest, n, s. now rewrite Hshape.
Qed.

(** ** Calls without a head *)

Lemma forward_direct_no_draw (self : WideDeep (T := T)) X out (g : Generator) :
  exists r, forward_direct add self X out g = (r, g).
Proof.
  unfold forward_direct, mbind, M_bind, lift, mret, M_ret.
  destruct (add_branch add out (deeptabular self) X "deeptabular") as [o1 |];
    [| eauto].
  destruct (add_branch add o1 (deeptext self) X "deeptext") as [o2 |];
    [| eauto].
  destruct (add_branch add o2 (deepimage self) X "deepimage") as [o3 |];
    eauto.
Qed.

(** X17. Without a head, and also with a head that is there but counts as
    false, a call draws nothing and can be repeated: it leaves the
    generator as it found it, and its answer is the same from every state
    of the generator. *)
Theorem forward_without_head_repeatable (self : WideDeep (T := T)) X g1 g2 :
  truthy (deephead self) = false ->
  snd (forward self X g1) = g1
  /\ fst (forward self X g1) = fst (forward self X g2).
Proof.
  intros Hh.
  assert (Hd : forall g : Generator, forward self X g
                         = match wide_out zero self X with
                           | Return out => forward_direct add self X out g
                           | Raise e => (Raise e, g)
                           end).
  { intros g. unfold WideDeepModel.forward, mbind at 1, M_bind, lift.
    destruct (wide_out zero self X) as [out |]; [| reflexivity].
    destruct (deephead self) as [h |]; [| reflexivity].
    cbn [truthy] in Hh. now rewrite Hh. }
  rewrite !Hd. destruct (wide_out zero self X) as [out |]; [| now split].
  assert (Hpure : forall g g' : Generator,
            fst (forward_direct add self X out g)
            = fst (forward_direct add self X out g')).
  { intros g g'. unfold forward_direct, mbind, M_bind, lift, mret, M_ret.
    destruct (add_branch add out (deeptabular self) X "deeptabular")
      as [o1 |]; [| reflexivity].
    destruct (add_branch add o1 (deeptext self) X "deeptext") as [o2 |];
      [| reflexivity].
    destruct (add_branch add o2 (deepimage self) X "deepimage") as [o3 |];
      reflexivity. }
  split; [| apply Hpure].
  destruct (forward_direct_no_draw self X out g1) as [r ->]. reflexivity.
Qed.

(** ** Components of a built model *)

Lemma with_projection_inv (m : option (Module (T := T))) pd g r g' :
  with_projection zero add mul sample m pd g = (Return r, g') ->
  forall b, r = Some b -> output_dim b = None.
Proof.
  unfold with_projection, mbind, M_bind, lift, mret, M_ret.
  destruct m as [b0 |].
  - destruct (get_output_dim b0) as [d |]; [| discriminate].
    destruct (Linear zero add mul sample d pd g) as [[lin |] g1];
      [| discriminate].
    intros [= <- _] b [= <-]. reflexivity.
  - intros [= <- _] b Hb. discriminate Hb.
Qed.

Lemma init_no_head_inv wide tab txt img opts pd g m g' :
  init wide tab txt img None None opts pd g = (Return m, g') ->
  forall b,
    deeptabular m = Some b \/ deeptext m = Some b \/ deepimage m = Some b ->
    output_dim b = None.
Proof.
  unfold WideDeepModel.init, mbind at 1, M_bind at 1, lift at 1.
  destruct (_check_model_components wide tab txt img None None pd);
    [| discriminate].
  unfold mbind, M_bind, mret, M_ret.
  destruct (with_projection zero add mul sample tab pd g)
    as [[t1 |] g1] eqn:H1; [| discriminate].
  destruct (with_projection zero add mul sample txt pd g1)
    as [[t2 |] g2] eqn:H2; [| discriminate].
  destruct (with_projection zero add mul sample img pd g2)
    as [[t3 |] g3] eqn:H3; [| discriminate].
  intros [= <- _] b. cbn [deeptabular deeptext deepimage].
  intros [Hb | [Hb | Hb]];
    eauto using with_projection_inv.
Qed.

(** X18. A model built without a head holds each deep component wrapped with
    its projection, and the wrapper has no [output_dim]. Such a component
    therefore cannot be composed again: handing it to the composer fails
    the check, whatever else is passed, with [AttributeError] when no
    wide component is passed. *)
Theorem built_components_lose_output_dim wide tab txt img opts pd g m g' b :
  init wide tab txt img None None opts pd g = (Return m, g') ->
  deeptabular m = Some b \/ deeptext m = Some b \/ deepimage m = Some b ->
  output_dim b = None
  /\ (forall head' hld' pd',
        _check_model_components None (deeptabular m) (deeptext m)
          (deepimage m) head' hld' pd' = Raise AttributeError)
  /\ (forall wide' head' hld' opts' pd' g2, exists e,
        init wide' (deeptabular m) (deeptext m) (deepimage m) head' hld'
          opts' pd' g2 = (Raise e, g2)).
Proof.
  intros Hinit Hb.
  pose proof (init_no_head_inv _ _ _ _ _ _ _ _ _ Hinit b Hb) as Hdim.
  split; [exact Hdim | split].
  - intros head' hld' pd'. unfold _check_model_components.
    cbn [mbind outcome_bind].
    destruct (lacks_output_dim (deeptabular m)) eqn:E1; [reflexivity |].
    destruct (lacks_output_dim (deeptext m)) eqn:E2; [reflexivity |].
    destruct (lacks_output_dim (deepimage m)) eqn:E3; [reflexivity |].
    exfalso. apply lacks_output_dim_None in Hdim.
    destruct Hb as [Hb | [Hb | Hb]]; rewrite Hb in *; congruence.
  - intros wide' head' hld' opts' pd' g2.
    destruct (check_rejects wide' (deeptabular m) (deeptext m) (deepimage m)
                head' hld' pd') as [e He].
    + now apply (output_dim_missing _ _ _ _ _ _ _ b).
    + exists e. now apply init_check_raises.
Qed.

(** ** A negative [pred_dim] *)

Lemma Linear_negative d pd (g : Generator) :
  (pd < 0)%Z -> Linear zero add mul sample d pd g = (Raise RuntimeError, g).
Proof.
  intros H. unfold Linear. now rewrite bool_decide_eq_true_2 by (right; lia).
Qed.

Lemma forward_negative_pred_dim (self : WideDeep (T := T)) X g :
  wide self = None -> (pred_dim self < 0)%Z ->
  exists e, forward self X g = (Raise e, g).
Proof.
  intros Hw Hpd. unfold WideDeepModel.forward, mbind at 1, M_bind, lift.
  assert (He : exists e, wide_out zero self X = Raise e).
  { unfold wide_out. rewrite Hw. destruct X as [| [k x] rest]; [eauto |].
    cbn [keys map fst]. rewrite getitem_first. cbn [mbind outcome_bind].
    destruct (size x 0) as [n |]; cbn [mbind outcome_bind]; [| eauto].
    unfold zeros. rewrite bool_decide_eq_true_2 by lia. eauto. }
  destruct He as [e ->]. now exists e.
Qed.


End More.

End ComposerMore.

Module ComposerMoreRuns.
Import WideDeepModel ComposerSpec ComposerSpecMore ComposerMore.
Import Toy(none).
Local Open Scope Z_scope.

Lemma check_passes_iff_witness :
  well_configured none (Some (Toy.passthrough 1)) none none
    (Some (Toy.user_head 1)) None 1
  /\ _check_model_components none (Some (Toy.passthrough 1)) none none
       (Some (Toy.user_head 1)) None 1 = Return tt.
Proof.
  assert (H : well_configured none (Some (Toy.passthrough 1)) none none
                (Some (Toy.user_head 1)) None 1).
  { repeat split.
    - intros w Hw. discriminate Hw.
    - intros b [[= <-] | [Hb | Hb]]; [now exists 1 | discriminate Hb ..].
    - now right.
    - intros Hn. now contradiction Hn.
    - intros h [= <-]. now exists 1. }
  split; [exact H |].
  exact (proj2 (check_passes_iff none (Some (Toy.passthrough 1)) none none
                  (Some (Toy.user_head 1)) None 1) H).
Defined.

Lemma forward_reads_present_keys_witness :
  let y := mkTensor [1%nat; 1%nat] [3] in
  let self := mkWideDeep 1 (Some (Toy.const_wide 1 y))
                (Some (Toy.passthrough 1)) none none none in
  let X := [("wide", y); ("deeptabular", mkTensor [1%nat; 1%nat] [4])] in
  let X' := [("deeptext", mkTensor [2%nat] [8; 9]);
             ("deeptabular", mkTensor [1%nat; 1%nat] [4]); ("wide", y)] in
  ((wide self = None -> first_entry X = first_entry X')
   /\ (forall key, present self key -> get X key = get X' key))
  /\ Toy.forward self X 0 = Toy.forward self X' 0.
Proof.
  intros y self X X'.
  assert (H1 : wide self = None -> first_entry X = first_entry X')
    by (intros H; discriminate H).
  assert (H2 : forall key, present self key -> get X key = get X' key).
  { intros key [[-> _] | [[-> _] | [[_ H] | [_ H]]]];
      first [reflexivity | now contradiction H]. }
  split; [split; assumption |].
  exact (forward_reads_present_keys 0 Z.add Z.mul Toy.sample self X X' 0 H1 H2).
Defined.

Lemma forward_output_shape_witness :
  let y := mkTensor [1%nat; 1%nat] [1] in
  Toy.forward Toy.headed (Toy.X1 2) 0 = (Return y, 2)
  /\ (exists out, wide_out 0 Toy.headed (Toy.X1 2) = Return out
                  /\ shape y = shape out)
  /\ (wide Toy.headed = None ->
      exists k x rest n s,
        Toy.X1 2 = (k, x) :: rest /\ shape x = n :: s
        /\ 0 <= pred_dim Toy.headed
        /\ shape y = [n; Z.to_nat (pred_dim Toy.headed)]).
Proof.
  intros y.
  assert (H : Toy.forward Toy.headed (Toy.X1 2) 0 = (Return y, 2))
    by reflexivity.
  split; [exact H |].
  exact (forward_output_shape 0 Z.add Z.mul Toy.sample Toy.headed (Toy.X1 2)
           0 y 2 H).
Defined.

Lemma forward_without_head_repeatable_witness :
  let self := mkWideDeep 1 none (Some (Toy.passthrough 1)) none none none in
  truthy (deephead self) = false
  /\ snd (Toy.forward self (Toy.X1 2) 5) = 5
  /\ fst (Toy.forward self (Toy.X1 2) 5) = fst (Toy.forward self (Toy.X1 2) 9).
Proof.
  intros self.
  assert (H : truthy (deephead self) = false) by reflexivity.
  split; [exact H |].
  exact (forward_without_head_repeatable 0 Z.add Z.mul Toy.sample self
           (Toy.X1 2) 5 9 H).
Defined.

Lemma built_components_lose_output_dim_witness :
  let lin := mkModule (linear 0 Z.add Z.mul 1 1 [0] [1])
               None None [[1%nat; 1%nat]; [1%nat]] true in
  let b := Sequential (Toy.passthrough 1) lin in
  let m := mkWideDeep 1 none (Some b) none none none in
  (Toy.init none (Some (Toy.passthrough 1)) none none none None
     default_head_options 1 0 = (Return m, 2)
   /\ (deeptabular m = Some b \/ deeptext m = Some b \/ deepimage m = Some b))
  /\ output_dim b = None
  /\ (forall head' hld' pd',
        _check_model_components None (deeptabular m) (deeptext m)
          (deepimage m) head' hld' pd' = Raise AttributeError)
  /\ (forall wide' head' hld' opts' pd' g2, exists e,
        Toy.init wide' (deeptabular m) (deeptext m) (deepimage m) head' hld'
          opts' pd' g2 = (Raise e, g2)).
Proof.
  intros lin b m.
  assert (H1 : Toy.init none (Some (Toy.passthrough 1)) none none none None
                 default_head_options 1 0 = (Return m, 2)) by reflexivity.
  assert (H2 : deeptabular m = Some b \/ deeptext m = Some b
               \/ deepimage m = Some b) by (left; reflexivity).
  split; [split; assumption |].
  exact (built_components_lose_output_dim 0 Z.add Z.mul Toy.sample Toy.MLP
           Toy.add_module none (Some (Toy.passthrough 1)) none none
           default_head_options 1 0 m 2 b H1 H2).
Defined.


End ComposerMoreRuns.

(* ================================================================== *)
(** * The attentive tabular model                                       *)
(* ================================================================== *)

Module AttentiveTabMlpTheorems.
Import WideDeepModel AttentiveTabMlpModel TorchMore.

Section Theorems.
Context {T : Type} {Generator : Type}.
Variable allowed_activations : list string.
Variable SameSizeCatAndContEmbeddings :
  Z -> dict Z -> option (list (string * Z)) -> R -> bool -> bool -> bool ->
  R -> bool -> option (list string) -> bool -> R -> option string -> bool ->
  option string -> M (Generator := Generator) (Embeddings (T := T)).
Variable AttentionEncoder :
  Z -> R -> bool -> string -> bool -> Z ->
  M (Generator := Generator) (Layer (T := T)).
Variable MLP :
  list Z -> string -> R -> bool -> bool -> bool ->
  M (Generator := Generator) (Layer (T := T)).

Abbreviation init :=
  (init allowed_activations SameSizeCatAndContEmbeddings AttentionEncoder MLP).

Lemma attention_blocks_length n a (g g' : Generator) blks :
  attention_blocks AttentionEncoder n a g = (Return blks, g') ->
  length blks = n.
Proof.
  revert g g' blks. induction n as [| n IH]; intros g g' blks; simpl.
  - now intros [= <- _].
  - unfold mbind, M_bind.
    destruct (AttentionEncoder _ _ _ _ _ _ g) as [[blk |] g1];
      [| discriminate].
    destruct (attention_blocks AttentionEncoder n a g1) as [[bs |] g2] eqn:Hb;
      [| discriminate].
    intros [= <- _]. simpl. f_equal. now apply (IH g1 g2).
Qed.


Lemma init_without_mlp a (g g' : Generator) m :
  init a g = (Return m, g') -> mlp_hidden_dims a = None ->
  stored m = a
  /\ output_dim m
     = attn_output_dim (with_cls_token m) (n_cat m) (n_cont m) (input_dim a).
Proof.
  unfold AttentiveTabMlpModel.init. intros Hinit Hmlp. revert Hinit.
  destruct (mem (mlp_activation a) allowed_activations); cbn [negb];
    [| discriminate].
  unfold mbind at 1 2, M_bind.
  destruct (SameSizeCatAndContEmbeddings _ _ _ _ _ _ _ _ _ _ _ _ _ _ _ g)
    as [[embed |] g1]; [| discriminate].
  destruct (attention_blocks AttentionEncoder (Z.to_nat (n_blocks a)) a g1)
    as [[blks |] g2]; [| discriminate].
  rewrite Hmlp. intros [= <- _]. split; reflexivity.
Qed.

Lemma sequential_keeps_shape (layers : list (Layer (T := T))) x :
  Forall keeps_shape layers ->
  exists y, sequential layers x = Return y /\ shape y = shape x.
Proof.
  intros H. revert x. induction H as [| l layers Hl _ IH]; intros x; simpl.
  - now exists x.
  - destruct (Hl x) as (y & -> & Hy). cbn [mbind outcome_bind].
    destruct (IH y) as (z & Hz & Hs). exists z. split; [exact Hz |].
    congruence.
Qed.

Lemma cat1_embeddings (a b : Tensor T) n ka kb d :
  shape a = [n; ka; d] -> shape b = [n; kb; d] ->
  exists c, cat1 a b = Return c /\ shape c = [n; (ka + kb)%nat; d].
Proof.
  intros Ha Hb. unfold cat1. rewrite Ha, Hb.
  rewrite !bool_decide_eq_false_2 by discriminate.
  rewrite bool_decide_eq_true_2 by now split.
  eexists. split; reflexivity.
Qed.

Lemma select_first_shape (x : Tensor T) n k d :
  shape x = [n; k; d] -> k <> 0%nat ->
  exists y, select_first x = Return y /\ shape y = [n; d].
Proof.
  intros Hx Hk. unfold select_first. rewrite Hx.
  destruct (Nat.eqb_spec k 0) as [-> | _]; [contradiction |].
  eexists. split; reflexivity.
Qed.

Lemma flatten1_shape (x : Tensor T) n k d :
  shape x = [n; k; d] ->
  exists y, flatten1 x = Return y /\ shape y = [n; (k * d)%nat].
Proof.
  intros Hx. unfold flatten1. rewrite Hx.
  eexists. split; [reflexivity |].
  cbn [shape numel_of fold_right]. do 2 f_equal. lia.
Qed.


End Theorems.

End AttentiveTabMlpTheorems.

Module AttentiveTabMlpRuns.
Import WideDeepModel AttentiveTabMlpModel AttentiveTabMlpTheorems.
Local Open Scope Z_scope.



End AttentiveTabMlpRuns.
